(** * SoundCloud artists scraper: input loading, HTTP retries, search and
    deduplication

    A shallow embedding of [src/main.py], [src/extractors/utils.py] and
    [src/extractors/soundcloud_parser.py].

    Conventions of the embedding:
    - a Python [str] is a [string] whose characters are the code points
      U+0000..U+00FF;
    - a parsed JSON document is a [json] value, a Python [dict] read with
      [.get] is a [gmap string json];
    - a Python [int] is a [Z]; a Python [float] read from JSON is a
      [spec_float]; a sleep duration is an exact rational ([Q]): the product
      of a binary64 number by a power of two is exact short of overflow;
    - an exception is a value of [exn]; code that can raise returns a
      [result]; code with effects (requests, sleeps, the export) runs in the
      monad [M], which threads the chronological list of [event]s;
    - log calls have no influence on control flow and are left out. *)

From Stdlib Require Import ZArith QArith Ascii String Floats.SpecFloat.
From stdpp Require Import gmap strings list.

Set Warnings "-register-all".

(** ** Python strings *)

Module PyStr.

(** [str.isspace] on one character, for code points below 256. *)
Definition isspace (c : ascii) : bool :=
  let n := N_of_ascii c in
  ((9 <=? n) && (n <=? 13) || (28 <=? n) && (n <=? 32)
   || (n =? 133) || (n =? 160))%N.

Definition isdigit (c : ascii) : bool :=
  let n := N_of_ascii c in ((48 <=? n) && (n <=? 57))%N.

Definition digit_value (c : ascii) : Z := Z.of_N (N_of_ascii c) - 48.

Fixpoint lstrip (s : string) : string :=
  match s with
  | EmptyString => EmptyString
  | String c s' => if isspace c then lstrip s' else s
  end.

Fixpoint rstrip (s : string) : string :=
  match s with
  | EmptyString => EmptyString
  | String c s' =>
      match rstrip s' with
      | EmptyString => if isspace c then EmptyString else String c EmptyString
      | r => String c r
      end
  end.

(** [s.strip()] *)
Definition strip (s : string) : string := rstrip (lstrip s).

(** Truth value of a string: [bool(s)]. *)
Definition truthy (s : string) : bool :=
  match s with EmptyString => false | _ => true end.

(** Every character of [s] is white space ([s] may be empty). *)
Fixpoint blank (s : string) : bool :=
  match s with
  | EmptyString => true
  | String c s' => isspace c && blank s'
  end.

(** The digits of an integer literal: decimal digits, single underscores
    allowed between two digits. [seen] tells whether the previous
    character was a digit. *)
Fixpoint digits (acc : Z) (seen : bool) (s : string) : option Z :=
  match s with
  | EmptyString => if seen then Some acc else None
  | String c s' =>
      if isdigit c then digits (10 * acc + digit_value c)%Z true s'
      else if Ascii.eqb c "_"%char && seen then
        match s' with
        | String c' _ => if isdigit c' then digits acc false s' else None
        | EmptyString => None
        end
      else None
  end.

(** The white space that [int()] skips around a literal: the C white space
    below 128 (U+001C..U+001F are not part of it), and the Unicode white
    space above, which [int()] first turns into spaces. *)
Definition int_isspace (c : ascii) : bool :=
  let n := N_of_ascii c in
  ((9 <=? n) && (n <=? 13) || (n =? 32) || (n =? 133) || (n =? 160))%N.

Fixpoint int_lstrip (s : string) : string :=
  match s with
  | EmptyString => EmptyString
  | String c s' => if int_isspace c then int_lstrip s' else s
  end.

Fixpoint int_rstrip (s : string) : string :=
  match s with
  | EmptyString => EmptyString
  | String c s' =>
      match int_rstrip s' with
      | EmptyString => if int_isspace c then EmptyString else String c EmptyString
      | r => String c r
      end
  end.

(** The number of decimal digits of a literal, and the largest number that
    [int()] converts ([sys.int_max_str_digits], 4300 unless it is set). *)
Fixpoint digit_count (s : string) : nat :=
  match s with
  | EmptyString => O
  | String c s' => if isdigit c then S (digit_count s') else digit_count s'
  end.

Definition max_str_digits : nat := 4300.

(** [int(s)] for a string: [None] stands for [ValueError]. *)
Definition to_int (s : string) : option Z :=
  let t := int_rstrip (int_lstrip s) in
  if (max_str_digits <? digit_count t)%nat then None
  else
    match t with
    | String "+"%char r => digits 0 false r
    | String "-"%char r => Z.opp <$> digits 0 false r
    | _ => digits 0 false t
    end.

End PyStr.

(** ** JSON values, exceptions, results *)

Inductive json :=
| JNull
| JBool (b : bool)
| JInt (n : Z)
| JFloat (f : spec_float)
| JStr (s : string)
| JList (l : list json)
| JDict (d : gmap string json).

Inductive exit_arg := ExitCode (n : Z) | ExitMsg (s : string).

Inductive exn :=
| RequestException (msg : string)   (* transport-level failure *)
| HTTPError (status : Z)            (* subclass of RequestException *)
| ValueError (msg : string)
| TypeError (msg : string)
| OverflowError (msg : string)
| AttributeError (msg : string)
| AssertionError
| OtherError (msg : string)
| SystemExit (arg : exit_arg).

(** [isinstance(e, RequestException)] *)
Definition is_RequestException (e : exn) : bool :=
  match e with
  | RequestException _ | HTTPError _ => true
  | _ => false
  end.

(** [isinstance(e, Exception)]: [SystemExit] derives from [BaseException]
    only. *)
Definition is_Exception (e : exn) : bool :=
  match e with
  | SystemExit _ => false
  | _ => true
  end.

Inductive result (A : Type) :=
| Ok (a : A)
| Raise (e : exn).
Arguments Ok {A} a.
Arguments Raise {A} e.

(** [bool(v)] *)
Definition py_truthy (v : json) : bool :=
  match v with
  | JNull => false
  | JBool b => b
  | JInt n => negb (n =? 0)%Z
  | JFloat (S754_zero _) => false
  | JFloat _ => true
  | JStr s => PyStr.truthy s
  | JList l => match l with [] => false | _ => true end
  | JDict d => match map_to_list d with [] => false | _ => true end
  end.

(** [a or b] *)
Definition py_or (a b : json) : json := if py_truthy a then a else b.

(** [d.get(k)] and [d.get(k, dflt)] *)
Definition dict_get (d : gmap string json) (k : string) : json :=
  default JNull (d !! k).

Definition dict_get_default (d : gmap string json) (k : string) (dflt : json)
  : json :=
  default dflt (d !! k).

(** Truncation of a finite binary float towards zero. *)
Definition float_trunc (s : bool) (m : positive) (e : Z) : Z :=
  let a := (if 0 <=? e then Z.pos m * 2 ^ e else Z.pos m / 2 ^ (- e))%Z in
  if s then (- a)%Z else a.

(** [int(v)] *)
Definition py_int (v : json) : result Z :=
  match v with
  | JNull => Raise (TypeError "int() argument must be a string or a number")
  | JBool b => Ok (if b then 1 else 0)%Z
  | JInt n => Ok n
  | JFloat S754_nan => Raise (ValueError "cannot convert float NaN to integer")
  | JFloat (S754_infinity _) =>
      Raise (OverflowError "cannot convert float infinity to integer")
  | JFloat (S754_zero _) => Ok 0%Z
  | JFloat (S754_finite s m e) => Ok (float_trunc s m e)
  | JStr s =>
      match PyStr.to_int s with
      | Some n => Ok n
      | None => Raise (ValueError "invalid literal for int() with base 10")
      end
  | JList _ | JDict _ =>
      Raise (TypeError "int() argument must be a string or a number")
  end.

(** ** main.py: the input configuration *)

Record input_cfg := {
  profiles : list string;
  keywords : list string;
  maxItemsPerKeyword : Z
}.

(** [[p for p in entries if isinstance(p, str) and p.strip()]] *)
Fixpoint str_entries (entries : list json) : list string :=
  match entries with
  | [] => []
  | JStr p :: rest =>
      if PyStr.truthy (PyStr.strip p) then p :: str_entries rest
      else str_entries rest
  | _ :: rest => str_entries rest
  end.

Definition _normalize_input_config (raw : gmap string json) : result input_cfg :=
  match py_or (dict_get raw "profiles") (JList []) with
  | JList ps =>
      match py_or (dict_get raw "keywords") (JList []) with
      | JList ks =>
          match py_int (dict_get_default raw "maxItemsPerKeyword" (JInt 20)) with
          | Ok n =>
              if (n <=? 0)%Z
              then Raise (ValueError "`maxItemsPerKeyword` must be > 0.")
              else Ok {| profiles := str_entries ps;
                         keywords := str_entries ks;
                         maxItemsPerKeyword := n |}
          | Raise (TypeError _) | Raise (ValueError _) =>
              Raise (ValueError "`maxItemsPerKeyword` must be an integer.")
          | Raise e => Raise e
          end
      | _ => Raise (ValueError "`keywords` must be a list of search keywords.")
      end
  | _ =>
      Raise (ValueError "`profiles` must be a list of SoundCloud profile URLs.")
  end.

(** ** utils.py: requests, sleeps and the retry loop *)

Record response := {
  status_code : Z;
  text : string
}.

(** What [requests.get] does on one call: it returns a response or raises. *)
Inductive reply :=
| Responds (resp : response)
| Fails (exc : exn).

Record request := {
  req_url : string;
  req_headers : list (string * string);
  req_timeout : Z;
  req_proxies : option (list (string * string))
}.

(** ** deduplication data: the artist record

    The records are built by [_normalize_artist], which the available source
    does not contain; the fields are those of the data model: an identifier
    that is an integer or a string, a permalink, a name and optional
    metadata. [None] is Python's [None] (or a missing key). *)

Inductive artist_id := IdInt (n : Z) | IdStr (s : string).

Record artist := {
  id : option artist_id;
  permalink_url : option string;
  username : option string;
  followers_count : option Z;
  track_count : option Z;
  avatar_url : option string;
  description : option string
}.

Inductive event :=
| EvGet (req : request) (rep : reply)     (* one call of requests.get *)
| EvSleep (secs : Q)                      (* one completed time.sleep *)
| EvExport (artists : list artist).       (* the output file is written *)

(** The run so far, oldest event first. *)
Definition world := list event.

(** Computations with effects and exceptions. *)
Definition M (A : Type) : Type := world -> result A * world.

Definition ret {A} (a : A) : M A := fun w => (Ok a, w).

Definition raise {A} (e : exn) : M A := fun w => (Raise e, w).

Definition bind {A B} (c : M A) (k : A -> M B) : M B :=
  fun w =>
    match c w with
    | (Ok a, w') => k a w'
    | (Raise e, w') => (Raise e, w')
    end.

Definition emit (ev : event) : M unit := fun w => (Ok tt, w ++ [ev]).

Definition lift {A} (r : result A) : M A := fun w => (r, w).

(** [try: c  except Exception as exc: handler exc] *)
Definition try_except {A} (c : M A) (handler : exn -> M A) : M A :=
  fun w =>
    match c w with
    | (Raise e, w') => if is_Exception e then handler e w' else (Raise e, w')
    | r => r
    end.

Declare Scope py_scope.
Delimit Scope py_scope with py.
Notation "x <- c ;; k" := (bind c (fun x => k))
  (at level 100, c at next level, right associativity) : py_scope.
Notation "c ;;; k" := (bind c (fun _ => k))
  (at level 100, right associativity) : py_scope.

Definition _build_headers (user_agent : option string) : list (string * string) :=
  let headers :=
    [("Accept", "text/html,application/xhtml+xml,application/xml;q=0.9,*/*;q=0.8");
     ("Accept-Language", "en-US,en;q=0.5");
     ("Connection", "keep-alive")] in
  match user_agent with
  | Some ua => if PyStr.truthy ua then headers ++ [("User-Agent", ua)] else headers
  | None => headers
  end.

(** [resp.raise_for_status()] of the requests library: an [HTTPError] for a
    client (4xx) or server (5xx) error status, nothing otherwise. *)
Definition raise_for_status (resp : response) : result unit :=
  if ((400 <=? status_code resp) && (status_code resp <? 600))%Z
  then Raise (HTTPError (status_code resp))
  else Ok tt.

(** The body of the [try] block of one attempt: the call, then the status
    check. *)
Definition attempt_outcome (rep : reply) : result response :=
  match rep with
  | Responds resp =>
      match raise_for_status resp with
      | Ok _ => Ok resp
      | Raise e => Raise e
      end
  | Fails exc => Raise exc
  end.

(** [time.sleep(secs)]: a negative length is a [ValueError]. *)
Definition time_sleep (secs : Q) : M unit :=
  if Qle_bool 0 secs then emit (EvSleep secs)
  else raise (ValueError "sleep length must be non-negative").

(** How the [while] loop of [http_get] is left. *)
Inductive loop_exit :=
| Returned (resp : response)          (* [return resp] *)
| Exited (last_exc : option exn).     (* condition false, or [break] *)

Section Network.

(** The remote side: the reply to a request, given the run so far. *)
Variable network : world -> request -> reply.

Definition requests_get (req : request) : M reply :=
  fun w => let rep := network w req in (Ok rep, w ++ [EvGet req rep]).

(** The loop of [http_get]; [fuel] bounds the number of iterations and
    [None] means that it ran out. *)
Fixpoint http_get_loop (fuel : nat) (req : request) (max_retries : Z)
    (backoff_factor : Q) (attempt : Z) (last_exc : option exn) (w : world)
  : option (result loop_exit * world) :=
  if (attempt <? max_retries)%Z then
    match fuel with
    | O => None
    | S fuel' =>
        let attempt := (attempt + 1)%Z in
        match requests_get req w with
        | (Raise e, w1) => Some (Raise e, w1)
        | (Ok rep, w1) =>
            match attempt_outcome rep with
            | Ok resp => Some (Ok (Returned resp), w1)
            | Raise exc =>
                if is_RequestException exc then
                  let last_exc := Some exc in
                  if (attempt >=? max_retries)%Z
                  then Some (Ok (Exited last_exc), w1)
                  else
                    let sleep_for :=
                      (backoff_factor * inject_Z (2 ^ (attempt - 1)))%Q in
                    match time_sleep sleep_for w1 with
                    | (Ok _, w2) =>
                        http_get_loop fuel' req max_retries backoff_factor
                          attempt last_exc w2
                    | (Raise e, w2) => Some (Raise e, w2)
                    end
                else Some (Raise exc, w1)
            end
        end
    end
  else Some (Ok (Exited last_exc), w).

(** The two statements after the loop: [assert last_exc is not None] and
    [raise last_exc]. *)
Definition after_loop (r : result loop_exit) : result response :=
  match r with
  | Ok (Returned resp) => Ok resp
  | Ok (Exited None) => Raise AssertionError
  | Ok (Exited (Some exc)) => Raise exc
  | Raise e => Raise e
  end.

Definition http_request (url : string) (timeout : Z)
    (user_agent proxy : option string) : request :=
  {| req_url := url;
     req_headers := _build_headers user_agent;
     req_timeout := timeout;
     req_proxies :=
       match proxy with
       | Some p =>
           if PyStr.truthy p then Some [("http", p); ("https", p)] else None
       | None => None
       end |}.

(** [http_get] with an explicit bound on the iterations of its loop. *)
Definition http_get_fuel (fuel : nat) (url : string) (timeout max_retries : Z)
    (backoff_factor : Q) (user_agent proxy : option string) (w : world)
  : option (result response * world) :=
  match http_get_loop fuel (http_request url timeout user_agent proxy)
          max_retries backoff_factor 0 None w with
  | Some (r, w') => Some (after_loop r, w')
  | None => None
  end.

(** [http_get]: [max_retries] iterations are enough (lemma
    [http_get_fuel_enough]), so the last case never applies. *)
Definition http_get (url : string) (timeout max_retries : Z)
    (backoff_factor : Q) (user_agent proxy : option string) : M response :=
  fun w =>
    match http_get_fuel (Z.to_nat max_retries) url timeout max_retries
            backoff_factor user_agent proxy w with
    | Some r => r
    | None => (Raise (OtherError "unreachable"), w)
    end.

End Network.

(** ** soundcloud_parser.py *)

Record ScraperConfig := {
  base_url : string;
  timeout : Z;
  max_retries : Z;
  backoff_factor : Q;
  user_agent : option string;
  proxy : option string
}.

(** [s.startswith(p)], with the rest of [s] after [p]. *)
Fixpoint strip_prefix (p s : string) : option string :=
  match p, s with
  | EmptyString, _ => Some s
  | String a p', String b s' => if Ascii.eqb a b then strip_prefix p' s' else None
  | String _ _, EmptyString => None
  end.

Definition startswith (s p : string) : bool :=
  match strip_prefix p s with Some _ => true | None => false end.

(** [s.lstrip(c)] and [s.rstrip(c)] for a single character [c]. *)
Fixpoint lstrip_char (c : ascii) (s : string) : string :=
  match s with
  | String a s' => if Ascii.eqb a c then lstrip_char c s' else s
  | EmptyString => EmptyString
  end.

Fixpoint rstrip_char (c : ascii) (s : string) : string :=
  match s with
  | EmptyString => EmptyString
  | String a s' =>
      match rstrip_char c s' with
      | EmptyString => if Ascii.eqb a c then EmptyString else String a EmptyString
      | r => String a r
      end
  end.

(** *** The primary hydration pattern

    [window\.__sc_hydration\s*=\s*(\[[^\n]+?\]);] : the functions below follow
    the matcher on it. *)

Definition newline : ascii := ascii_of_nat 10.

(** [[^\n]+?\]);] after the opening bracket: [taken] holds the characters
    consumed by the lazy repetition, last one first. The repetition takes
    one character before the closing [];] is tried. *)
Fixpoint lazy_body (taken : list ascii) (s : string) : option string :=
  match s with
  | EmptyString => None
  | String c s' =>
      let more := if Ascii.eqb c newline then None else lazy_body (c :: taken) s' in
      match taken with
      | [] => more
      | _ :: _ =>
          if startswith s "];"
          then Some (String "["%char (string_of_list_ascii (rev taken)) ++ "]")%string
          else more
      end
  end.

(** The pattern after the literal [window.__sc_hydration]. *)
Definition match_assignment (s : string) : option string :=
  match PyStr.lstrip s with
  | String "="%char s1 =>
      match PyStr.lstrip s1 with
      | String "["%char s2 => lazy_body [] s2
      | _ => None
      end
  | _ => None
  end.

Definition match_here (s : string) : option string :=
  match strip_prefix "window.__sc_hydration" s with
  | Some rest => match_assignment rest
  | None => None
  end.

(** [pattern.search(html)]: group 1 of the leftmost match. *)
Fixpoint pattern_search (html : string) : option string :=
  match match_here html with
  | Some g => Some g
  | None =>
      match html with
      | EmptyString => None
      | String _ rest => pattern_search rest
      end
  end.

(** What the embedding takes as given: library functions, and the helpers of
    the scraper that the available source does not contain. The fields
    return a value: the embedding describes the runs in which these
    functions return. [urllib]'s [quote] and [urljoin] raise on some
    arguments ([UnicodeEncodeError] for a character that cannot be encoded,
    [ValueError] for a malformed host), and the absent helpers may raise
    too; a run in which one of them raises is outside the embedding, and no
    statement below says that such a run does not exist. *)
Record page_parser := {
  (* group 1 of the first match of the lenient multi-line pattern *)
  pattern_loose_search : string -> option string;
  (* json.loads *)
  json_loads : string -> result json;
  _find_user_block : list json -> option json;
  _find_user_list : list json -> list json;
  (* [None] also stands for a result that is not truthy *)
  _normalize_artist : json -> option string -> option artist;
  (* applied to the page text: BeautifulSoup(html, "html.parser") is built
     from it *)
  _parse_from_meta_tags : string -> string -> option artist;
  _extract_profile_links_from_search_page : string -> list string;
  (* urllib.parse *)
  quote : string -> string;
  urljoin : string -> string -> string
}.

(** [artists[:n]] *)
Definition slice_to {A} (l : list A) (n : Z) : list A :=
  if (0 <=? n)%Z then take (Z.to_nat n) l
  else take (length l - Z.to_nat (- n)) l.

(** [len(artists) >= max_items] *)
Definition len_ge {A} (l : list A) (n : Z) : bool := (Z.of_nat (length l) >=? n)%Z.

Section Scraper.

Variable network : world -> request -> reply.
Variable parser : page_parser.
Variable config : ScraperConfig.

Definition _normalize_profile_url (url : string) : string :=
  let url := PyStr.strip url in
  if negb (startswith url "http")
  then urljoin parser (base_url config ++ "/")%string (lstrip_char "/" url)
  else url.

(** Modelled from the spec: the part of [_extract_hydration_blocks] after
    the primary match (the lenient second pattern, then the parsing of the
    matched text) is not in the available source. The matched text is
    parsed as JSON; malformed JSON is treated as no match and gives the
    empty result. *)
Definition parse_hydration (matched : string) : list json :=
  match json_loads parser matched with
  | Ok (JList blocks) => blocks
  | Ok _ => []
  | Raise _ => []
  end.

Definition _extract_hydration_blocks (html : string) : list json :=
  match pattern_search html with
  | Some matched => parse_hydration matched
  | None =>
      match pattern_loose_search parser html with
      | Some matched => parse_hydration matched
      | None => []
      end
  end.

Definition scraper_get (url : string) : M response :=
  http_get network url (timeout config) (max_retries config)
    (backoff_factor config) (user_agent config) (proxy config).

Definition fetch_artist_profile (profile_url : string) : M (option artist) :=
  (let normalized_url := _normalize_profile_url profile_url in
   resp <- scraper_get normalized_url ;;
   let html := text resp in
   let hydration := _extract_hydration_blocks html in
   match _find_user_block parser hydration with
   | Some user_block =>
       ret (_normalize_artist parser user_block (Some normalized_url))
   | None => ret (_parse_from_meta_tags parser html normalized_url)
   end)%py.

(** First loop of [search_artists]: the users embedded in the hydration. *)
Fixpoint collect_hydration (max_items : Z) (user_entries : list json)
    (artists : list artist) : list artist :=
  match user_entries with
  | [] => artists
  | user_data :: rest =>
      if len_ge artists max_items then artists
      else
        match _normalize_artist parser user_data None with
        | Some a => collect_hydration max_items rest (artists ++ [a])
        | None => collect_hydration max_items rest artists
        end
  end.

(** Second loop of [search_artists]: the profile links of the page. *)
Fixpoint collect_profiles (max_items : Z) (profile_links : list string)
    (artists : list artist) : M (list artist) :=
  match profile_links with
  | [] => ret artists
  | url :: rest =>
      if len_ge artists max_items then ret artists
      else
        (found <- try_except (fetch_artist_profile url) (fun _ => ret None) ;;
         match found with
         | Some a => collect_profiles max_items rest (artists ++ [a])
         | None => collect_profiles max_items rest artists
         end)%py
  end.

Definition search_artists (keyword : string) (max_items : Z) : M (list artist) :=
  (let q := PyStr.strip keyword in
   if negb (PyStr.truthy q) then raise (ValueError "Keyword cannot be empty.")
   else
     let search_url :=
       (base_url config ++ "/search/people?q=" ++ quote parser q)%string in
     resp <- scraper_get search_url ;;
     let html := text resp in
     let hydration := _extract_hydration_blocks html in
     let user_entries := _find_user_list parser hydration in
     let artists := collect_hydration max_items user_entries [] in
     if len_ge artists max_items then ret (slice_to artists max_items)
     else
       let profile_links := _extract_profile_links_from_search_page parser html in
       artists <- collect_profiles max_items profile_links artists ;;
       ret (slice_to artists max_items))%py.

End Scraper.

(** [SoundCloudArtistScraper.__init__] *)
Definition new_scraper (base_url : string) (timeout max_retries : Z)
    (backoff_factor : Q) (user_agent proxy : option string) : ScraperConfig :=
  {| base_url := rstrip_char "/" base_url;
     timeout := timeout;
     max_retries := max_retries;
     backoff_factor := backoff_factor;
     user_agent := user_agent;
     proxy := proxy |}.

(** ** main.py: deduplication *)

(** The identity key of [_deduplicate_artists]: [("id", artist_id)] or
    [("url", permalink_url)]. *)
Inductive dedup_key :=
| KeyId (i : artist_id)
| KeyUrl (u : string).

#[global] Instance artist_id_eq_dec : EqDecision artist_id.
Proof. solve_decision. Defined.

#[global] Instance artist_id_countable : Countable artist_id.
Proof.
  refine (inj_countable'
            (fun i => match i with IdInt n => inl n | IdStr s => inr s end)
            (fun x => match x with inl n => IdInt n | inr s => IdStr s end) _).
  intros []; reflexivity.
Defined.

#[global] Instance dedup_key_eq_dec : EqDecision dedup_key.
Proof. solve_decision. Defined.

#[global] Instance dedup_key_countable : Countable dedup_key.
Proof.
  refine (inj_countable'
            (fun k => match k with KeyId i => inl i | KeyUrl u => inr u end)
            (fun x => match x with inl i => KeyId i | inr u => KeyUrl u end) _).
  intros []; reflexivity.
Defined.

(** The variable [key] of the loop body; [None] is Python's [None]. *)
Definition artist_key (a : artist) : option dedup_key :=
  match id a with
  | Some artist_id => Some (KeyId artist_id)
  | None =>
      match permalink_url a with
      | Some url => if PyStr.truthy url then Some (KeyUrl url) else None
      | None => None
      end
  end.

Fixpoint dedup_loop (artists : list artist) (seen_ids seen_urls : gset dedup_key)
    (result : list artist) : list artist :=
  match artists with
  | [] => result
  | a :: rest =>
      match artist_key a with
      | None => dedup_loop rest seen_ids seen_urls (result ++ [a])
      | Some key =>
          if bool_decide (key ∈ seen_ids) || bool_decide (key ∈ seen_urls)
          then dedup_loop rest seen_ids seen_urls result
          else
            match key with
            | KeyId _ =>
                dedup_loop rest ({[key]} ∪ seen_ids) seen_urls (result ++ [a])
            | KeyUrl _ =>
                dedup_loop rest seen_ids ({[key]} ∪ seen_urls) (result ++ [a])
            end
      end
  end.

Definition _deduplicate_artists (artists : list artist) : list artist :=
  dedup_loop artists ∅ ∅ [].

(** ** main.py: the run *)

(** [export_to_json(deduped, output_path)] *)
Definition export_to_json (artists : list artist) : M unit :=
  emit (EvExport artists).

Section Main.

Variable network : world -> request -> reply.
Variable parser : page_parser.

(** The loop over [input_cfg["profiles"]]: no handler around the fetch. *)
Fixpoint fetch_profiles (scraper : ScraperConfig) (urls : list string)
    (all_artists : list artist) : M (list artist) :=
  match urls with
  | [] => ret all_artists
  | url :: rest =>
      (found <- fetch_artist_profile network parser scraper url ;;
       match found with
       | Some a => fetch_profiles scraper rest (all_artists ++ [a])
       | None => fetch_profiles scraper rest all_artists
       end)%py
  end.

(** The loop over [input_cfg["keywords"]]: a failed search is logged and
    skipped. *)
Fixpoint search_keywords (scraper : ScraperConfig) (max_items : Z)
    (kws : list string) (all_artists : list artist) : M (list artist) :=
  match kws with
  | [] => ret all_artists
  | keyword :: rest =>
      (all_artists <-
         try_except
           (artists <- search_artists network parser scraper keyword max_items ;;
            ret (all_artists ++ artists))
           (fun _ => ret all_artists) ;;
       search_keywords scraper max_items rest all_artists)%py
  end.

(** [main]. [input_exists] is [input_path.exists()], [loaded] is what
    [load_json_file(input_path)] returns or raises, and [scraper] is the
    scraper built from the runtime settings. *)
Definition main (input_exists : bool) (loaded : result json)
    (scraper : ScraperConfig) : M unit :=
  if negb input_exists
  then raise (SystemExit (ExitMsg "Input file not found"))
  else
    let parsed :=
      match loaded with
      | Ok (JDict raw_input_cfg) => _normalize_input_config raw_input_cfg
      | Ok _ => Raise (AttributeError "object has no attribute 'get'")
      | Raise e => Raise e
      end in
    match parsed with
    | Raise e =>
        if is_Exception e then raise (SystemExit (ExitCode 1)) else raise e
    | Ok input_cfg =>
        (all_artists <- fetch_profiles scraper (profiles input_cfg) [] ;;
         all_artists <-
           search_keywords scraper (maxItemsPerKeyword input_cfg)
             (keywords input_cfg) all_artists ;;
         match all_artists with
         | [] => ret tt
         | _ => export_to_json (_deduplicate_artists all_artists)
         end)%py
    end.

End Main.

(** ** Vocabulary of the statements *)

(** [isinstance(v, list)] *)
Definition is_list (v : json) : bool :=
  match v with JList _ => true | _ => false end.

(** [isinstance(v, int)] for a value that is not a [bool]. *)
Definition is_integer (v : json) : bool :=
  match v with JInt _ => true | _ => false end.

(** The malformed input configurations: a truthy value that is not a list
    under [profiles] or [keywords], or a [maxItemsPerKeyword] for which
    [int()] raises [TypeError] or [ValueError], or which it converts to a
    number that is not positive. *)
Definition malformed (raw : gmap string json) : bool :=
  let p := dict_get raw "profiles" in
  let k := dict_get raw "keywords" in
  (py_truthy p && negb (is_list p))
  || (py_truthy k && negb (is_list k))
  || match py_int (dict_get_default raw "maxItemsPerKeyword" (JInt 20)) with
     | Ok n => (n <=? 0)%Z
     | Raise (TypeError _) | Raise (ValueError _) => true
     | Raise _ => false
     end.

(** The input configurations for which the loader returns nothing: the
    malformed ones, and those on which [int()] raises another exception. *)
Definition refused (raw : gmap string json) : bool :=
  let p := dict_get raw "profiles" in
  let k := dict_get raw "keywords" in
  (py_truthy p && negb (is_list p))
  || (py_truthy k && negb (is_list k))
  || match py_int (dict_get_default raw "maxItemsPerKeyword" (JInt 20)) with
     | Ok n => (n <=? 0)%Z
     | Raise _ => true
     end.

(** The entries that the list comprehensions keep: strings with a character
    that is not white space. *)
Definition kept_entry (v : json) : bool :=
  match v with
  | JStr s => negb (PyStr.blank s)
  | _ => false
  end.

(** The replies to the requests of a trace, and the lengths of its sleeps. *)
Definition gets (tr : list event) : list reply :=
  omap (fun ev => match ev with EvGet _ rep => Some rep | _ => None end) tr.

Definition sleeps (tr : list event) : list Q :=
  omap (fun ev => match ev with EvSleep d => Some d | _ => None end) tr.

(** An attempt fails when its [try] block raises; [failure] is what it
    raises. *)
Definition failure (rep : reply) : option exn :=
  match attempt_outcome rep with
  | Raise e => Some e
  | Ok _ => None
  end.

Definition failed (rep : reply) : bool :=
  match failure rep with Some _ => true | None => false end.

(** Failure in the words of the specification: a transport-level exception
    or a status outside 200..299. *)
Definition failed_non_2xx (rep : reply) : bool :=
  match rep with
  | Fails _ => true
  | Responds resp =>
      negb ((200 <=? status_code resp) && (status_code resp <? 300))%Z
  end.

(** The delay before attempt [n >= 2] in the words of the specification. *)
Definition backoff_delay (backoff_factor : Q) (n : Z) : Q :=
  (backoff_factor * inject_Z (2 ^ (n - 2)))%Q.

(** The trace of the attempts number [n], [n + 1], ... with the given
    replies, each attempt from the second on preceded by its delay. *)
Fixpoint attempts_trace (backoff_factor : Q) (req : request) (n : Z)
    (replies : list reply) : list event :=
  match replies with
  | [] => []
  | rep :: rest =>
      (if (2 <=? n)%Z then [EvSleep (backoff_delay backoff_factor n)] else [])
      ++ EvGet req rep :: attempts_trace backoff_factor req (n + 1) rest
  end.

(** The loop of [_deduplicate_artists] with one set of seen keys and the
    result built from the front. *)
Fixpoint first_seen (seen : gset dedup_key) (artists : list artist) : list artist :=
  match artists with
  | [] => []
  | a :: rest =>
      match artist_key a with
      | None => a :: first_seen seen rest
      | Some key =>
          if bool_decide (key ∈ seen) then first_seen seen rest
          else a :: first_seen ({[key]} ∪ seen) rest
      end
  end.

(** The keys of the keyed records of a list are pairwise distinct and not
    in [seen]. *)
Fixpoint distinct_keys (seen : gset dedup_key) (artists : list artist) : Prop :=
  match artists with
  | [] => True
  | a :: rest =>
      match artist_key a with
      | None => distinct_keys seen rest
      | Some key => (key ∉ seen) /\ distinct_keys ({[key]} ∪ seen) rest
      end
  end.

(** ** Sample environments *)

Module Sample.

Definition mk_artist (i : option artist_id) (url : option string)
    (name : string) : artist :=
  {| id := i; permalink_url := url; username := Some name;
     followers_count := None; track_count := None;
     avatar_url := None; description := None |}.

(** Every request fails at the transport level. *)
Definition net_down : world -> request -> reply :=
  fun _ _ => Fails (RequestException "connection refused").

(** Every request is answered 304 Not Modified. *)
Definition net_304 : world -> request -> reply :=
  fun _ _ => Responds {| status_code := 304; text := "" |}.

(** Every request is answered 200 with a page that holds a hydration
    assignment. *)
Definition net_ok : world -> request -> reply :=
  fun _ _ =>
    Responds {| status_code := 200;
                text := "<script>window.__sc_hydration = [1, 2, 3];</script>" |}.

(** A parser for pages whose hydration is a list of user identifiers. *)
Definition parser : page_parser :=
  {| pattern_loose_search := fun _ => None;
     json_loads := fun s =>
       if String.eqb s "[1, 2, 3]" then Ok (JList [JInt 1; JInt 2; JInt 3])
       else Raise (ValueError "Expecting value");
     _find_user_block := fun blocks => head blocks;
     _find_user_list := fun blocks => blocks;
     _normalize_artist := fun v url =>
       match v with
       | JInt n => Some (mk_artist (Some (IdInt n)) url "user")
       | _ => None
       end;
     _parse_from_meta_tags := fun _ _ => None;
     _extract_profile_links_from_search_page := fun _ => [];
     quote := fun s => s;
     urljoin := fun b s => (b ++ s)%string |}.

Definition scraper : ScraperConfig :=
  new_scraper "https://soundcloud.com" 15 3 (1 # 2) None None.

(** [{"profiles": 0, "keywords": "", "maxItemsPerKeyword": 2.5}] *)
Definition lenient_raw : gmap string json :=
  {[ "profiles" := JInt 0;
     "keywords" := JStr "";
     "maxItemsPerKeyword" := JFloat (S754_finite false 5 (-1)) ]}.

(** [{"profiles": "https://soundcloud.com/a"}] *)
Definition bad_profiles_raw : gmap string json :=
  {[ "profiles" := JStr "https://soundcloud.com/a" ]}.

(** [{"profiles": ["https://soundcloud.com/a", " ", 7], "keywords":
    ["lofi"], "maxItemsPerKeyword": 5}] *)
Definition good_raw : gmap string json :=
  {[ "profiles" := JList [JStr "https://soundcloud.com/a"; JStr " "; JInt 7];
     "keywords" := JList [JStr "lofi"];
     "maxItemsPerKeyword" := JInt 5 ]}.

(** [http_get("https://soundcloud.com/a", max_retries=..., backoff_factor=...)]
    at the start of a run, with every request failing. *)
Definition down_run (max_retries : Z) (backoff_factor : Q)
  : result response * world :=
  http_get net_down "https://soundcloud.com/a" 15 max_retries backoff_factor
    None None [].

(** [http_get("https://soundcloud.com/a", max_retries=1)] answered 304. *)
Definition not_modified_run : result response * world :=
  http_get net_304 "https://soundcloud.com/a" 15 1 (1 # 2) None None [].

End Sample.

(** ** utils.py: [safe_get] *)

(** [safe_get(obj, key, default)] *)
Definition safe_get (obj : json) (key : string) (dflt : json) : json :=
  match obj with
  | JDict d => dict_get_default d key dflt
  | _ => dflt
  end.

(** ** Further vocabulary *)

(** An attempt after which [http_get] goes on: its [try] block raised a
    [RequestException]. *)
Definition retried (rep : reply) : bool :=
  match failure rep with
  | Some e => is_RequestException e
  | None => false
  end.

(** The time slept in a trace. *)
Definition total_sleep (tr : list event) : Q := fold_right Qplus 0%Q (sleeps tr).

(** The requests of a trace. *)
Definition requests (tr : list event) : list request :=
  omap (fun ev => match ev with EvGet req _ => Some req | _ => None end) tr.

(** The lists of artists that a trace writes out. *)
Definition exports (tr : list event) : list (list artist) :=
  omap (fun ev => match ev with EvExport l => Some l | _ => None end) tr.

(** The dictionary that [_normalize_input_config] returns, as a JSON
    object. *)
Definition cfg_dict (cfg : input_cfg) : gmap string json :=
  {[ "profiles" := JList (map JStr (profiles cfg));
     "keywords" := JList (map JStr (keywords cfg));
     "maxItemsPerKeyword" := JInt (maxItemsPerKeyword cfg) ]}.

(** [s.endswith(c)] for a single character, and [c in s]. *)
Fixpoint ends_with (c : ascii) (s : string) : bool :=
  match s with
  | EmptyString => false
  | String a EmptyString => Ascii.eqb a c
  | String _ s' => ends_with c s'
  end.

Fixpoint occurs (c : ascii) (s : string) : bool :=
  match s with
  | EmptyString => false
  | String a s' => Ascii.eqb a c || occurs c s'
  end.

(** A computation only adds events to the run, none of them an export. *)
Definition network_only {A} (c : M A) : Prop :=
  forall w r w', c w = (r, w') -> exists new, w' = w ++ new /\ exports new = [].

(** * Proofs *)

(** ** Strings and the entries of the input lists *)

Lemma lstrip_blank s : PyStr.blank s = true -> PyStr.lstrip s = EmptyString.
Proof.
  induction s as [|c s IH]; simpl; [reflexivity|].
  destruct (PyStr.isspace c); simpl; [assumption|discriminate].
Qed.

Lemma lstrip_not_blank s :
  PyStr.blank s = false ->
  exists c s', PyStr.lstrip s = String c s' /\ PyStr.isspace c = false.
Proof.
  induction s as [|c s IH]; simpl; [discriminate|].
  destruct (PyStr.isspace c) eqn:Hc; simpl; [assumption|].
  intros _. exists c, s. split; [reflexivity|assumption].
Qed.

Lemma rstrip_head c s :
  PyStr.isspace c = false -> PyStr.truthy (PyStr.rstrip (String c s)) = true.
Proof.
  intros Hc. simpl. destruct (PyStr.rstrip s); [rewrite Hc|]; reflexivity.
Qed.

Lemma strip_truthy s : PyStr.truthy (PyStr.strip s) = negb (PyStr.blank s).
Proof.
  unfold PyStr.strip. destruct (PyStr.blank s) eqn:Hb.
  - rewrite lstrip_blank by assumption. reflexivity.
  - destruct (lstrip_not_blank s Hb) as (c & s' & -> & Hc).
    now apply rstrip_head.
Qed.

Lemma str_entries_filter entries :
  map JStr (str_entries entries) = filter (fun v => kept_entry v = true) entries.
Proof.
  induction entries as [|v rest IH]; [reflexivity|].
  rewrite filter_cons.
  destruct v as [| | | |s| |];
    try (cbn [str_entries kept_entry];
         destruct (decide _) as [H|H]; [discriminate|exact IH]).
  cbn [str_entries kept_entry]. rewrite strip_truthy.
  destruct (PyStr.blank s); cbn [negb];
    destruct (decide _) as [H|H]; try congruence.
  cbn [map]. now rewrite IH.
Qed.

(** ** The input loader *)

(** [int()] does not take U+001C for white space, [str.strip] does; both
    take U+00A0 for white space. *)
Lemma to_int_white_space :
  PyStr.to_int (String (ascii_of_nat 28) "5") = None
  /\ PyStr.strip (String (ascii_of_nat 28) "5") = "5"%string
  /\ PyStr.to_int (String (ascii_of_nat 160) "5") = Some 5%Z.
Proof. repeat split; reflexivity. Qed.

Lemma py_or_list v :
  py_truthy v && negb (is_list v) = false ->
  exists l, py_or v (JList []) = JList l.
Proof.
  unfold py_or. destruct (py_truthy v) eqn:Ht; [|eauto].
  destruct v; simpl; try discriminate. eauto.
Qed.

Lemma py_or_not_list v :
  py_truthy v && negb (is_list v) = true ->
  is_list (py_or v (JList [])) = false.
Proof.
  unfold py_or. destruct (py_truthy v); [|discriminate].
  simpl. now destruct (is_list v).
Qed.

Lemma normalize_malformed (raw : gmap string json) :
  malformed raw = true ->
  exists msg, _normalize_input_config raw = Raise (ValueError msg).
Proof.
  unfold malformed, _normalize_input_config.
  destruct (py_truthy (dict_get raw "profiles")
            && negb (is_list (dict_get raw "profiles"))) eqn:Hp.
  { intros _. apply py_or_not_list in Hp.
    destruct (py_or (dict_get raw "profiles") (JList [])); try discriminate;
      eexists; reflexivity. }
  destruct (py_or_list _ Hp) as [ps ->].
  destruct (py_truthy (dict_get raw "keywords")
            && negb (is_list (dict_get raw "keywords"))) eqn:Hk.
  { intros _. apply py_or_not_list in Hk.
    destruct (py_or (dict_get raw "keywords") (JList [])); try discriminate;
      eexists; reflexivity. }
  destruct (py_or_list _ Hk) as [ks ->].
  cbn [orb].
  destruct (py_int _) as [n|e].
  - intros ->. eexists; reflexivity.
  - destruct e; try discriminate; intros _; eexists; reflexivity.
Qed.

Lemma normalize_refused (raw : gmap string json) :
  refused raw = true -> exists e, _normalize_input_config raw = Raise e.
Proof.
  unfold refused, _normalize_input_config.
  destruct (py_truthy (dict_get raw "profiles")
            && negb (is_list (dict_get raw "profiles"))) eqn:Hp.
  { intros _. apply py_or_not_list in Hp.
    destruct (py_or (dict_get raw "profiles") (JList [])); try discriminate;
      eexists; reflexivity. }
  destruct (py_or_list _ Hp) as [ps ->].
  destruct (py_truthy (dict_get raw "keywords")
            && negb (is_list (dict_get raw "keywords"))) eqn:Hk.
  { intros _. apply py_or_not_list in Hk.
    destruct (py_or (dict_get raw "keywords") (JList [])); try discriminate;
      eexists; reflexivity. }
  destruct (py_or_list _ Hk) as [ks ->].
  cbn [orb].
  destruct (py_int _) as [n|e].
  - intros ->. eexists; reflexivity.
  - destruct e; intros _; eexists; reflexivity.
Qed.

(** C1, as amended. A configuration with a truthy non-list [profiles] or
    [keywords], or with a [maxItemsPerKeyword] for which [int()] raises
    [TypeError] or [ValueError] or which it turns into a number that is not
    positive, makes [_normalize_input_config] raise [ValueError], and [main]
    then exits with status 1 without having added any event to the run: no
    request was sent. *)
Theorem malformed_input_rejected (raw : gmap string json)
    (network : world -> request -> reply) (parser : page_parser)
    (scraper : ScraperConfig) (w : world) :
  malformed raw = true ->
  (exists msg, _normalize_input_config raw = Raise (ValueError msg))
  /\ main network parser true (Ok (JDict raw)) scraper w
     = (Raise (SystemExit (ExitCode 1)), w).
Proof.
  intros H. destruct (normalize_malformed raw H) as (msg & Hmsg).
  split; [eauto|].
  unfold main. cbn [negb]. rewrite Hmsg. reflexivity.
Qed.

(** C9. For a configuration whose [profiles] and [keywords] are lists and
    whose [maxItemsPerKeyword] is a positive integer or is missing, the
    loader returns the configuration with the same entries in the same
    order, less the entries that are not strings or hold white space only,
    and with the given maximum, or 20 when it is missing. *)
Theorem valid_input_normalized (raw : gmap string json) (ps ks : list json)
    (n : Z) :
  raw !! "profiles" = Some (JList ps) ->
  raw !! "keywords" = Some (JList ks) ->
  (raw !! "maxItemsPerKeyword" = Some (JInt n) /\ (0 < n)%Z)
  \/ (raw !! "maxItemsPerKeyword" = None /\ n = 20%Z) ->
  exists cfg,
    _normalize_input_config raw = Ok cfg
    /\ map JStr (profiles cfg) = filter (fun v => kept_entry v = true) ps
    /\ map JStr (keywords cfg) = filter (fun v => kept_entry v = true) ks
    /\ maxItemsPerKeyword cfg = n.
Proof.
  intros Hp Hk Hn.
  assert (Hor : forall l, py_or (JList l) (JList []) = JList l)
    by (intros []; reflexivity).
  assert (Hint : py_int (dict_get_default raw "maxItemsPerKeyword" (JInt 20))
                 = Ok n /\ (0 < n)%Z).
  { unfold dict_get_default.
    destruct Hn as [[-> Hpos]|[-> ->]]; cbn; split; auto; lia. }
  destruct Hint as [Hint Hpos].
  unfold _normalize_input_config, dict_get.
  rewrite Hp, Hk. cbn [from_option]. unfold Datatypes.id. rewrite !Hor, Hint.
  destruct (Z.leb_spec n 0) as [Hle|_]; [lia|].
  eexists; split; [reflexivity|].
  cbn [profiles keywords maxItemsPerKeyword].
  now rewrite !str_entries_filter.
Qed.

(** ** The retry loop of [http_get] *)

Lemma gets_app tr1 tr2 : gets (tr1 ++ tr2) = gets tr1 ++ gets tr2.
Proof. unfold gets. apply omap_app. Qed.

Lemma sleeps_app tr1 tr2 : sleeps (tr1 ++ tr2) = sleeps tr1 ++ sleeps tr2.
Proof. unfold sleeps. apply omap_app. Qed.

Lemma gets_attempts_trace bf req n replies :
  gets (attempts_trace bf req n replies) = replies.
Proof.
  revert n. induction replies as [|rep rest IH]; intros n; [reflexivity|].
  cbn [attempts_trace]. rewrite gets_app.
  destruct (2 <=? n)%Z; cbn; now rewrite IH.
Qed.

Lemma failure_outcome rep e :
  attempt_outcome rep = Raise e -> failure rep = Some e.
Proof. unfold failure. now intros ->. Qed.

Lemma time_sleep_cases secs w :
  time_sleep secs w = (Ok tt, w ++ [EvSleep secs])
  \/ exists e, time_sleep secs w = (Raise e, w).
Proof.
  unfold time_sleep. destruct (Qle_bool 0 secs); [left|right; eexists];
    reflexivity.
Qed.

Section RetryLoop.

Variable network : world -> request -> reply.
Variable req : request.
Variable max_retries : Z.
Variable backoff_factor : Q.

Local Abbreviation loop fuel := (http_get_loop network fuel req max_retries backoff_factor).

(** Enough fuel: the loop ends. *)
Lemma http_get_loop_total fuel attempt last_exc w :
  (Z.to_nat (max_retries - attempt) <= fuel)%nat ->
  exists r w', loop fuel attempt last_exc w = Some (r, w').
Proof.
  revert attempt last_exc w.
  induction fuel as [|fuel IH]; intros attempt last_exc w Hfuel;
    cbn [http_get_loop];
    destruct (Z.ltb_spec attempt max_retries) as [Hlt|Hge]; eauto; [lia|].
  unfold requests_get.
  destruct (attempt_outcome _) as [resp|exc]; [eauto|].
  destruct (is_RequestException exc); [|eauto].
  destruct (attempt + 1 >=? max_retries)%Z eqn:Hlast; [eauto|].
  destruct (time_sleep_cases
              (backoff_factor * inject_Z (2 ^ (attempt + 1 - 1)))
              (w ++ [EvGet req (network w req)])) as [->|[e ->]]; [|eauto].
  apply IH. lia.
Qed.

(** The shape of the trace: one request, then a delay and a request for
    each further attempt; at most [max_retries - attempt] requests. *)
Lemma http_get_loop_trace fuel attempt last_exc w r w' :
  (0 <= attempt)%Z ->
  loop fuel attempt last_exc w = Some (r, w') ->
  (max_retries <= attempt)%Z /\ w' = w
  \/ (attempt < max_retries)%Z
     /\ exists rep rest,
          w' = w ++ EvGet req rep
                 :: attempts_trace backoff_factor req (attempt + 2) rest
          /\ (Z.of_nat (S (length rest)) <= max_retries - attempt)%Z.
Proof.
  revert attempt last_exc w.
  induction fuel as [|fuel IH]; intros attempt last_exc w Hpos;
    cbn [http_get_loop];
    destruct (Z.ltb_spec attempt max_retries) as [Hlt|Hge];
    try discriminate;
    try (intros [= <- <-]; left; split; [lia|reflexivity]).
  unfold requests_get.
  set (rep := network w req).
  assert (Hone : forall w1, w1 = w ++ [EvGet req rep] ->
            exists rep0 rest,
              w1 = w ++ EvGet req rep0
                     :: attempts_trace backoff_factor req (attempt + 2) rest
              /\ (Z.of_nat (S (length rest)) <= max_retries - attempt)%Z).
  { intros w1 ->. exists rep, []. split; [reflexivity|cbn; lia]. }
  destruct (attempt_outcome rep) as [resp|exc].
  { intros [= <- <-]. right; split; auto. }
  destruct (is_RequestException exc).
  2:{ intros [= <- <-]. right; split; auto. }
  destruct (Z.geb_spec (attempt + 1) max_retries) as [Hlast|Hmore].
  { intros [= <- <-]. right; split; auto. }
  destruct (time_sleep_cases
              (backoff_factor * inject_Z (2 ^ (attempt + 1 - 1)))
              (w ++ [EvGet req rep])) as [->|[e ->]].
  2:{ intros [= <- <-]. right; split; auto. }
  intros Hrec. apply IH in Hrec; [|lia].
  destruct Hrec as [[Hle _]|[_ (rep2 & rest & -> & Hlen)]]; [lia|].
  right; split; [assumption|].
  exists rep, (rep2 :: rest). split.
  - rewrite <- !app_assoc. cbn [app attempts_trace].
    destruct (Z.leb_spec 2 (attempt + 2)) as [_|Hbad]; [|lia].
    unfold backoff_delay.
    replace (attempt + 2 - 2)%Z with (attempt + 1 - 1)%Z by lia.
    replace (attempt + 2 + 1)%Z with (attempt + 1 + 2)%Z by lia.
    reflexivity.
  - cbn [length]. lia.
Qed.

(** When the loop made every attempt that [max_retries] allows and each
    one failed, what follows the loop raises the failure of the last
    one. *)
Lemma http_get_loop_last fuel attempt last_exc w r w' :
  loop fuel attempt last_exc w = Some (r, w') ->
  exists new,
    w' = w ++ new
    /\ (length (gets new) <= Z.to_nat (max_retries - attempt))%nat
    /\ ((attempt < max_retries)%Z ->
        length (gets new) = Z.to_nat (max_retries - attempt) ->
        Forall (fun rep => failed rep = true) (gets new) ->
        exists exc,
          last (gets new) ≫= failure = Some exc /\ after_loop r = Raise exc).
Proof.
  revert attempt last_exc w.
  induction fuel as [|fuel IH]; intros attempt last_exc w;
    cbn [http_get_loop];
    destruct (Z.ltb_spec attempt max_retries) as [Hlt|Hge];
    try discriminate;
    try (intros [= <- <-]; exists []; rewrite app_nil_r;
         repeat split; [cbn; lia|intros; lia]).
  unfold requests_get.
  set (rep := network w req).
  destruct (attempt_outcome rep) as [resp|exc] eqn:Hout.
  { intros [= <- <-]. exists [EvGet req rep]. repeat split; [cbn; lia|].
    intros _ _ Hall. cbn in Hall. apply Forall_cons in Hall as [Hf _].
    unfold failed, failure in Hf. now rewrite Hout in Hf. }
  apply failure_outcome in Hout.
  destruct (is_RequestException exc).
  2:{ intros [= <- <-]. exists [EvGet req rep]. repeat split; [cbn; lia|].
      intros _ _ _. exists exc. cbn. auto. }
  destruct (Z.geb_spec (attempt + 1) max_retries) as [Hlast|Hmore].
  { intros [= <- <-]. exists [EvGet req rep]. repeat split; [cbn; lia|].
    intros _ _ _. exists exc. cbn. auto. }
  destruct (time_sleep_cases
              (backoff_factor * inject_Z (2 ^ (attempt + 1 - 1)))
              (w ++ [EvGet req rep])) as [->|[e ->]].
  2:{ intros [= <- <-]. exists [EvGet req rep]. repeat split; [cbn; lia|].
      cbn. intros _ Hlen. lia. }
  intros Hrec. apply IH in Hrec as (new & -> & Hle & Hfin).
  exists (EvGet req rep :: EvSleep (backoff_factor * inject_Z (2 ^ (attempt + 1 - 1))) :: new).
  split; [now rewrite <- !app_assoc|].
  change (gets (EvGet req rep :: EvSleep (backoff_factor * inject_Z (2 ^ (attempt + 1 - 1))) :: new))
    with (rep :: gets new).
  split; [cbn [length]; lia|].
  intros _ Hlen Hall. cbn [length] in Hlen.
  apply Forall_cons in Hall as [_ Hall].
  destruct Hfin as (exc' & Hl & Hr); [lia|lia|assumption|].
  exists exc'. split; [|assumption].
  destruct (gets new) as [|rep2 rest]; [discriminate|exact Hl].
Qed.

End RetryLoop.

Section RetryLoopExit.

Variable network : world -> request -> reply.
Variable req : request.
Variable max_retries : Z.
Variable backoff_factor : Q.

(** The loop is left with an exception in [last_exc] as soon as its body
    ran once. *)
Lemma http_get_loop_exit fuel attempt last_exc w last' w' :
  http_get_loop network fuel req max_retries backoff_factor attempt last_exc w
  = Some (Ok (Exited last'), w') ->
  (attempt < max_retries)%Z ->
  exists exc, last' = Some exc.
Proof.
  revert attempt last_exc w.
  induction fuel as [|fuel IH]; intros attempt last_exc w;
    cbn [http_get_loop];
    destruct (Z.ltb_spec attempt max_retries) as [Hlt|Hge];
    try discriminate; try (intros _ ?; lia).
  unfold requests_get.
  destruct (attempt_outcome _) as [resp|exc]; [discriminate|].
  destruct (is_RequestException exc); [|discriminate].
  destruct (Z.geb_spec (attempt + 1) max_retries) as [Hlast|Hmore].
  { intros [= <- <-] _. eauto. }
  destruct (time_sleep_cases
              (backoff_factor * inject_Z (2 ^ (attempt + 1 - 1)))
              (w ++ [EvGet req (network w req)])) as [->|[e ->]];
    [|discriminate].
  intros Hrec _. apply IH in Hrec; [assumption|lia].
Qed.

End RetryLoopExit.

Lemma http_get_run network url timeout max_retries bf ua px w :
  exists r,
    http_get_loop network (Z.to_nat max_retries)
      (http_request url timeout ua px) max_retries bf 0 None w
    = Some (r, snd (http_get network url timeout max_retries bf ua px w))
    /\ fst (http_get network url timeout max_retries bf ua px w) = after_loop r.
Proof.
  unfold http_get, http_get_fuel.
  destruct (http_get_loop_total network (http_request url timeout ua px)
              max_retries bf (Z.to_nat max_retries) 0 None w)
    as (r & w' & ->); [lia|].
  exists r. split; reflexivity.
Qed.

(** [http_get] never runs out of iterations. *)
Lemma http_get_fuel_enough network url timeout max_retries bf ua px w :
  http_get_fuel network (Z.to_nat max_retries) url timeout max_retries bf ua px w
  = Some (http_get network url timeout max_retries bf ua px w).
Proof.
  unfold http_get.
  destruct (http_get_run network url timeout max_retries bf ua px w)
    as (r & Hr & _).
  unfold http_get_fuel. now rewrite Hr.
Qed.

(** C2, as amended. In a call of [http_get] with [max_retries >= 1] that
    makes all its [max_retries] attempts, each of them failing (the request
    raises, or the status is a 4xx or 5xx error), the call raises exactly the
    exception of the last attempt. *)
Theorem http_get_raises_last_failure (network : world -> request -> reply)
    (url : string) (timeout max_retries : Z) (bf : Q)
    (ua px : option string) (w : world) :
  let run := http_get network url timeout max_retries bf ua px w in
  let attempts := gets (drop (length w) (snd run)) in
  (1 <= max_retries)%Z ->
  Z.of_nat (length attempts) = max_retries ->
  Forall (fun rep => failed rep = true) attempts ->
  exists exc, last attempts ≫= failure = Some exc /\ fst run = Raise exc.
Proof.
  intros run attempts Hmr Hlen Hall. subst attempts run.
  destruct (http_get_run network url timeout max_retries bf ua px w)
    as (r & Hloop & ->).
  apply http_get_loop_last in Hloop as (new & Hw & _ & Hfin).
  rewrite Hw, drop_app_length in Hlen, Hall |- *.
  apply Hfin; [lia| |assumption].
  rewrite Z.sub_0_r. lia.
Qed.

(** C3, as amended. The events that a call of [http_get] adds to the run are
    those of its attempts, numbered from 1, every attempt [n >= 2] coming
    right after a sleep of [backoff_factor * 2^(n-2)] seconds, and there are
    at most [max_retries] attempts. With [max_retries = 3], a positive
    [backoff_factor] and three failing attempts there are exactly two
    sleeps, the second strictly longer than the first, and the call raises
    the failure of the third attempt. *)
Theorem backoff_schedule (network : world -> request -> reply)
    (url : string) (timeout max_retries : Z) (bf : Q)
    (ua px : option string) (w : world) :
  let run := http_get network url timeout max_retries bf ua px w in
  let new := drop (length w) (snd run) in
  (exists replies,
      (Z.of_nat (length replies) <= Z.max 0 max_retries)%Z
      /\ snd run
         = w ++ attempts_trace bf (http_request url timeout ua px) 1 replies)
  /\ (max_retries = 3%Z ->
      (0 < bf)%Q ->
      length (gets new) = 3%nat ->
      Forall (fun rep => failed rep = true) (gets new) ->
      sleeps new = [backoff_delay bf 2; backoff_delay bf 3]
      /\ (backoff_delay bf 2 < backoff_delay bf 3)%Q
      /\ exists exc, last (gets new) ≫= failure = Some exc
                     /\ fst run = Raise exc).
Proof.
  cbv zeta.
  assert (Hraise :
    (1 <= max_retries)%Z ->
    Z.of_nat (length (gets (drop (length w)
                (snd (http_get network url timeout max_retries bf ua px w)))))
    = max_retries ->
    Forall (fun rep => failed rep = true)
      (gets (drop (length w)
               (snd (http_get network url timeout max_retries bf ua px w)))) ->
    exists exc,
      last (gets (drop (length w)
                    (snd (http_get network url timeout max_retries bf ua px w))))
      ≫= failure = Some exc
      /\ fst (http_get network url timeout max_retries bf ua px w) = Raise exc).
  { intros Hmr Hlen Hall.
    destruct (http_get_run network url timeout max_retries bf ua px w)
      as (r & Hloop & ->).
    apply http_get_loop_last in Hloop as (new & Hw & _ & Hfin).
    rewrite Hw, drop_app_length in Hlen, Hall |- *.
    apply Hfin; [lia| |assumption].
    rewrite Z.sub_0_r. lia. }
  destruct (http_get_run network url timeout max_retries bf ua px w)
    as (r & Hloop & _).
  apply http_get_loop_trace in Hloop; [|lia].
  destruct (http_get network url timeout max_retries bf ua px w) as [res w'].
  cbn [fst snd] in *.
  assert (Hshape : exists replies,
      (Z.of_nat (length replies) <= Z.max 0 max_retries)%Z
      /\ w' = w ++ attempts_trace bf (http_request url timeout ua px) 1 replies).
  { destruct Hloop as [[Hle ->]|[Hlt (rep & rest & -> & Hlen)]].
    - exists []. split; [cbn; lia|]. now rewrite app_nil_r.
    - exists (rep :: rest). split; [cbn [length]; lia|reflexivity]. }
  split; [exact Hshape|].
  intros Hmr Hbf Hlen Hall.
  destruct Hraise as (exc & Hlast & Hres); [lia|lia|exact Hall|].
  destruct Hshape as (replies & _ & ->).
  rewrite drop_app_length in Hlen, Hall, Hlast |- *.
  rewrite gets_attempts_trace in Hlen, Hlast |- *.
  destruct replies as [|r1 [|r2 [|r3 [|r4 rest]]]]; try discriminate.
  split; [reflexivity|]. split; [|eauto].
  unfold backoff_delay.
  apply Qmult_lt_l; [assumption|reflexivity].
Qed.

(** C10. With [max_retries >= 1] the loop of [http_get] ends and, when it is
    left for the assertion, [last_exc] holds an exception: the assertion
    passes. With [max_retries <= 0] the body of the loop does not run: no
    event is added and [http_get] raises [AssertionError]. *)
Theorem http_get_assertion (network : world -> request -> reply)
    (url : string) (timeout max_retries : Z) (bf : Q)
    (ua px : option string) (w : world) :
  ((1 <= max_retries)%Z ->
   exists r w',
     http_get_loop network (Z.to_nat max_retries)
       (http_request url timeout ua px) max_retries bf 0 None w = Some (r, w')
     /\ r <> Ok (Exited None)
     /\ http_get network url timeout max_retries bf ua px w = (after_loop r, w'))
  /\ ((max_retries <= 0)%Z ->
      http_get network url timeout max_retries bf ua px w
      = (Raise AssertionError, w)).
Proof.
  split; intros Hmr.
  - destruct (http_get_run network url timeout max_retries bf ua px w)
      as (r & Hloop & Hres).
    exists r, (snd (http_get network url timeout max_retries bf ua px w)).
    split; [assumption|]. split.
    + intros ->. apply http_get_loop_exit in Hloop as [exc [=]]. lia.
    + rewrite <- Hres. now destruct (http_get _ _ _ _ _ _ _ _).
  - unfold http_get, http_get_fuel.
    replace (Z.to_nat max_retries) with 0%nat by lia.
    cbn [http_get_loop].
    destruct (Z.ltb_spec 0 max_retries) as [Hlt|_]; [lia|reflexivity].
Qed.

(** ** Deduplication *)

Lemma dedup_loop_first_seen artists seen_ids seen_urls result :
  dedup_loop artists seen_ids seen_urls result
  = result ++ first_seen (seen_ids ∪ seen_urls) artists.
Proof.
  revert seen_ids seen_urls result.
  induction artists as [|a rest IH]; intros seen_ids seen_urls result;
    cbn [dedup_loop first_seen]; [now rewrite app_nil_r|].
  destruct (artist_key a) as [key|].
  2:{ rewrite IH, <- app_assoc. reflexivity. }
  replace (bool_decide (key ∈ seen_ids) || bool_decide (key ∈ seen_urls))
    with (bool_decide (key ∈ seen_ids ∪ seen_urls)).
  2:{ apply eq_true_iff_eq.
      rewrite orb_true_iff, !bool_decide_eq_true. apply elem_of_union. }
  destruct (bool_decide (key ∈ seen_ids ∪ seen_urls)); [apply IH|].
  assert (Hids : {[key]} ∪ seen_ids ∪ seen_urls = {[key]} ∪ (seen_ids ∪ seen_urls))
    by (symmetry; apply (assoc_L (∪))).
  assert (Hurls : seen_ids ∪ ({[key]} ∪ seen_urls) = {[key]} ∪ (seen_ids ∪ seen_urls)).
  { rewrite !(assoc_L (∪)). f_equal. apply (comm_L (∪)). }
  destruct key; rewrite IH, <- app_assoc; cbn [app];
    [rewrite Hids|rewrite Hurls]; reflexivity.
Qed.

Lemma deduplicate_first_seen artists :
  _deduplicate_artists artists = first_seen ∅ artists.
Proof.
  unfold _deduplicate_artists. rewrite dedup_loop_first_seen.
  cbn [app]. now rewrite (left_id_L ∅ (∪)).
Qed.

Lemma first_seen_distinct seen artists :
  distinct_keys seen (first_seen seen artists).
Proof.
  revert seen. induction artists as [|a rest IH]; intros seen;
    cbn [first_seen distinct_keys]; [exact I|].
  destruct (artist_key a) as [key|] eqn:Hkey.
  - destruct (bool_decide (key ∈ seen)) eqn:Hin; [apply IH|].
    cbn [distinct_keys]. rewrite Hkey.
    apply bool_decide_eq_false in Hin. split; [assumption|apply IH].
  - cbn [distinct_keys]. rewrite Hkey. apply IH.
Qed.

Lemma first_seen_fixed seen artists :
  distinct_keys seen artists -> first_seen seen artists = artists.
Proof.
  revert seen. induction artists as [|a rest IH]; intros seen;
    cbn [first_seen distinct_keys]; [reflexivity|].
  destruct (artist_key a) as [key|].
  - intros [Hnew Hrest]. rewrite bool_decide_eq_false_2 by assumption.
    f_equal. now apply IH.
  - intros Hrest. f_equal. now apply IH.
Qed.

Lemma first_seen_sublist seen artists :
  sublist (first_seen seen artists) artists.
Proof.
  revert seen. induction artists as [|a rest IH]; intros seen;
    cbn [first_seen]; [constructor|].
  destruct (artist_key a) as [key|];
    [destruct (bool_decide (key ∈ seen))|]; now constructor.
Qed.



(** C4. Deduplicating twice gives what deduplicating once gives. *)
Theorem deduplicate_idempotent (artists : list artist) :
  _deduplicate_artists (_deduplicate_artists artists)
  = _deduplicate_artists artists.
Proof.
  rewrite !deduplicate_first_seen.
  apply first_seen_fixed, first_seen_distinct.
Qed.





(** ** The scraper *)

Lemma slice_to_length {A} (l : list A) (n : Z) :
  (0 <= n)%Z -> (Z.of_nat (length (slice_to l n)) <= n)%Z.
Proof.
  intros Hn. unfold slice_to.
  destruct (Z.leb_spec 0 n) as [_|Hneg]; [|lia].
  rewrite length_take. lia.
Qed.

Lemma slice_to_nil {A} (n : Z) : slice_to (@nil A) n = [].
Proof. unfold slice_to. destruct (0 <=? n)%Z; apply take_nil. Qed.

Lemma collect_hydration_negative parser max_items user_entries :
  (max_items < 0)%Z -> collect_hydration parser max_items user_entries [] = [].
Proof.
  intros Hneg. destruct user_entries as [|user_data rest]; [reflexivity|].
  cbn [collect_hydration]. unfold len_ge. cbn [length].
  destruct (Z.geb_spec (Z.of_nat 0) max_items) as [_|Hlt]; [reflexivity|lia].
Qed.

(** C6. A keyword that is empty or holds white space only makes
    [search_artists] raise [ValueError] and leaves the run as it was: no
    request was sent. *)
Theorem blank_keyword_rejected (network : world -> request -> reply)
    (parser : page_parser) (config : ScraperConfig) (keyword : string)
    (max_items : Z) (w : world) :
  PyStr.blank keyword = true ->
  search_artists network parser config keyword max_items w
  = (Raise (ValueError "Keyword cannot be empty."), w).
Proof.
  intros Hblank. unfold search_artists.
  rewrite strip_truthy, Hblank. reflexivity.
Qed.

(** C7. When [search_artists] returns, it returns at most [max_items]
    records, for every [max_items >= 0]; the records of the hydration and
    those of the profile links are counted together. For a negative
    [max_items], which [main] never passes, it returns no record. *)
Theorem search_artists_at_most (network : world -> request -> reply)
    (parser : page_parser) (config : ScraperConfig) (keyword : string)
    (max_items : Z) (w w' : world) (found : list artist) :
  search_artists network parser config keyword max_items w = (Ok found, w') ->
  ((0 <= max_items)%Z -> (Z.of_nat (length found) <= max_items)%Z)
  /\ ((max_items < 0)%Z -> found = []).
Proof.
  unfold search_artists.
  destruct (negb (PyStr.truthy (PyStr.strip keyword))); [discriminate|].
  unfold bind at 1.
  destruct (scraper_get network config _ w) as [[resp|e] w1]; [|discriminate].
  set (entries := _find_user_list parser _).
  destruct (len_ge (collect_hydration parser max_items entries []) max_items)
    eqn:Hfull.
  - intros [= <- <-]. split; [apply slice_to_length|].
    intros Hneg. rewrite collect_hydration_negative by assumption.
    apply slice_to_nil.
  - unfold bind.
    destruct (collect_profiles _ _ _ _ _ _ w1) as [[artists|e] w2];
      [|discriminate].
    intros [= <- <-]. split; [apply slice_to_length|].
    intros Hneg. rewrite collect_hydration_negative in Hfull by assumption.
    unfold len_ge in Hfull. cbn [length] in Hfull.
    destruct (Z.geb_spec (Z.of_nat 0) max_items); [discriminate|lia].
Qed.

(** C8. When neither pattern matches, [_extract_hydration_blocks] returns the
    empty list; it does so too when the text that a pattern matched is not
    valid JSON. The function is total: it raises in no case. *)
Theorem no_hydration_is_empty (parser : page_parser) (html : string) :
  (pattern_search html = None ->
   pattern_loose_search parser html = None ->
   _extract_hydration_blocks parser html = [])
  /\ (forall matched e,
        pattern_search html = Some matched
        \/ (pattern_search html = None
            /\ pattern_loose_search parser html = Some matched) ->
        json_loads parser matched = Raise e ->
        _extract_hydration_blocks parser html = []).
Proof.
  unfold _extract_hydration_blocks, parse_hydration. split.
  - intros -> ->. reflexivity.
  - intros matched e [->|[-> ->]] ->; reflexivity.
Qed.

(** ** The statements at sample inputs *)

Lemma malformed_input_rejected_witness :
  malformed Sample.bad_profiles_raw = true
  /\ (exists msg,
        _normalize_input_config Sample.bad_profiles_raw = Raise (ValueError msg))
  /\ main Sample.net_ok Sample.parser true (Ok (JDict Sample.bad_profiles_raw))
       Sample.scraper []
     = (Raise (SystemExit (ExitCode 1)), []).
Proof.
  split; [reflexivity|].
  apply (malformed_input_rejected Sample.bad_profiles_raw Sample.net_ok
           Sample.parser Sample.scraper []).
  reflexivity.
Defined.

(** C1 as stated fails: [profiles] and [keywords] that are not lists and a
    [maxItemsPerKeyword] that is not an integer are accepted. *)
Lemma lenient_input_accepted :
  is_list (dict_get Sample.lenient_raw "profiles") = false
  /\ is_list (dict_get Sample.lenient_raw "keywords") = false
  /\ is_integer (dict_get Sample.lenient_raw "maxItemsPerKeyword") = false
  /\ _normalize_input_config Sample.lenient_raw
     = Ok {| profiles := []; keywords := []; maxItemsPerKeyword := 2 |}.
Proof. repeat split; vm_compute; reflexivity. Qed.

Lemma valid_input_normalized_witness :
  Sample.good_raw !! "profiles"
  = Some (JList [JStr "https://soundcloud.com/a"; JStr " "; JInt 7])
  /\ Sample.good_raw !! "keywords" = Some (JList [JStr "lofi"])
  /\ Sample.good_raw !! "maxItemsPerKeyword" = Some (JInt 5)
  /\ exists cfg,
       _normalize_input_config Sample.good_raw = Ok cfg
       /\ map JStr (profiles cfg)
          = filter (fun v => kept_entry v = true)
              [JStr "https://soundcloud.com/a"; JStr " "; JInt 7]
       /\ map JStr (keywords cfg)
          = filter (fun v => kept_entry v = true) [JStr "lofi"]
       /\ maxItemsPerKeyword cfg = 5%Z.
Proof.
  do 3 (split; [reflexivity|]).
  apply (valid_input_normalized Sample.good_raw); [reflexivity|reflexivity|].
  left. split; [reflexivity|lia].
Defined.

Lemma http_get_raises_last_failure_witness :
  (1 <= 3)%Z
  /\ Z.of_nat (length (gets (snd (Sample.down_run 3 (1 # 2))))) = 3%Z
  /\ Forall (fun rep => failed rep = true) (gets (snd (Sample.down_run 3 (1 # 2))))
  /\ exists exc,
       last (gets (snd (Sample.down_run 3 (1 # 2)))) ≫= failure = Some exc
       /\ fst (Sample.down_run 3 (1 # 2)) = Raise exc.
Proof.
  assert (H1 : (1 <= 3)%Z) by lia.
  assert (H2 : Z.of_nat (length (gets (snd (Sample.down_run 3 (1 # 2))))) = 3%Z)
    by reflexivity.
  assert (H3 : Forall (fun rep => failed rep = true)
                 (gets (snd (Sample.down_run 3 (1 # 2)))))
    by (repeat constructor).
  do 3 (split; [assumption|]).
  exact (http_get_raises_last_failure Sample.net_down "https://soundcloud.com/a"
           15 3 (1 # 2) None None [] H1 H2 H3).
Defined.

(** C2 as stated fails: the only attempt of the call is answered with the
    status 304, which is outside 200..299, and the call returns the
    response. *)
Lemma not_modified_is_returned :
  Z.of_nat (length (gets (snd Sample.not_modified_run))) = 1%Z
  /\ forallb failed_non_2xx (gets (snd Sample.not_modified_run)) = true
  /\ fst Sample.not_modified_run = Ok {| status_code := 304; text := "" |}.
Proof. repeat split; vm_compute; reflexivity. Qed.

Lemma backoff_schedule_witness :
  (0 < 1 # 2)%Q
  /\ length (gets (snd (Sample.down_run 3 (1 # 2)))) = 3%nat
  /\ Forall (fun rep => failed rep = true) (gets (snd (Sample.down_run 3 (1 # 2))))
  /\ sleeps (snd (Sample.down_run 3 (1 # 2)))
     = [backoff_delay (1 # 2) 2; backoff_delay (1 # 2) 3]
  /\ (backoff_delay (1 # 2) 2 < backoff_delay (1 # 2) 3)%Q
  /\ exists exc,
       last (gets (snd (Sample.down_run 3 (1 # 2)))) ≫= failure = Some exc
       /\ fst (Sample.down_run 3 (1 # 2)) = Raise exc.
Proof.
  assert (H1 : (0 < 1 # 2)%Q) by reflexivity.
  assert (H2 : length (gets (snd (Sample.down_run 3 (1 # 2)))) = 3%nat)
    by reflexivity.
  assert (H3 : Forall (fun rep => failed rep = true)
                 (gets (snd (Sample.down_run 3 (1 # 2)))))
    by (repeat constructor).
  do 3 (split; [assumption|]).
  exact (proj2 (backoff_schedule Sample.net_down "https://soundcloud.com/a"
                  15 3 (1 # 2) None None []) eq_refl H1 H2 H3).
Defined.

(** C3 as stated fails: with a backoff factor of zero the three attempts
    fail and the two sleeps have the same length. *)
Lemma zero_backoff_sleeps_equal :
  length (gets (snd (Sample.down_run 3 0))) = 3%nat
  /\ forallb failed (gets (snd (Sample.down_run 3 0))) = true
  /\ exists d1 d2,
       sleeps (snd (Sample.down_run 3 0)) = [d1; d2] /\ ~ (d1 < d2)%Q.
Proof.
  split; [reflexivity|]. split; [reflexivity|].
  exists (0 * inject_Z (2 ^ (0 + 1 - 1)))%Q, (0 * inject_Z (2 ^ (0 + 1 + 1 - 1)))%Q.
  split; [reflexivity|]. intros H. vm_compute in H. discriminate.
Qed.

Lemma http_get_assertion_witness :
  (exists r w',
     http_get_loop Sample.net_down (Z.to_nat 3)
       (http_request "https://soundcloud.com/a" 15 None None) 3 (1 # 2) 0 None []
     = Some (r, w')
     /\ r <> Ok (Exited None)
     /\ Sample.down_run 3 (1 # 2) = (after_loop r, w'))
  /\ Sample.down_run 0 (1 # 2) = (Raise AssertionError, []).
Proof.
  split.
  - apply (proj1 (http_get_assertion Sample.net_down "https://soundcloud.com/a"
                    15 3 (1 # 2) None None [])). lia.
  - apply (proj2 (http_get_assertion Sample.net_down "https://soundcloud.com/a"
                    15 0 (1 # 2) None None [])). lia.
Defined.

Lemma blank_keyword_rejected_witness :
  PyStr.blank "" = true
  /\ search_artists Sample.net_ok Sample.parser Sample.scraper "" 10 []
     = (Raise (ValueError "Keyword cannot be empty."), []).
Proof.
  split; [reflexivity|].
  apply (blank_keyword_rejected Sample.net_ok Sample.parser Sample.scraper
           "" 10 []).
  reflexivity.
Defined.

Lemma search_artists_at_most_witness :
  exists found w',
    search_artists Sample.net_ok Sample.parser Sample.scraper "lofi" 2 []
    = (Ok found, w')
    /\ ((0 <= 2)%Z -> (Z.of_nat (length found) <= 2)%Z)
    /\ ((2 < 0)%Z -> found = []).
Proof.
  destruct (search_artists Sample.net_ok Sample.parser Sample.scraper "lofi" 2 [])
    as [[found|e] w'] eqn:Hrun.
  - exists found, w'. split; [reflexivity|].
    exact (search_artists_at_most Sample.net_ok Sample.parser Sample.scraper
             "lofi" 2 [] w' found Hrun).
  - vm_compute in Hrun. discriminate Hrun.
Defined.

Lemma no_hydration_is_empty_witness :
  pattern_search "<html><body>no script</body></html>" = None
  /\ pattern_loose_search Sample.parser "<html><body>no script</body></html>"
     = None
  /\ _extract_hydration_blocks Sample.parser
       "<html><body>no script</body></html>" = []
  /\ pattern_search "window.__sc_hydration = [oops];" = Some "[oops]"
  /\ json_loads Sample.parser "[oops]" = Raise (ValueError "Expecting value")
  /\ _extract_hydration_blocks Sample.parser "window.__sc_hydration = [oops];"
     = [].
Proof.
  assert (H1 : pattern_search "<html><body>no script</body></html>" = None)
    by reflexivity.
  assert (H2 : pattern_loose_search Sample.parser
                 "<html><body>no script</body></html>" = None) by reflexivity.
  assert (H3 : pattern_search "window.__sc_hydration = [oops];" = Some "[oops]")
    by reflexivity.
  assert (H4 : json_loads Sample.parser "[oops]"
               = Raise (ValueError "Expecting value")) by reflexivity.
  split; [exact H1|]. split; [exact H2|]. split.
  { exact (proj1 (no_hydration_is_empty Sample.parser
                    "<html><body>no script</body></html>") H1 H2). }
  split; [exact H3|]. split; [exact H4|].
  exact (proj2 (no_hydration_is_empty Sample.parser
                  "window.__sc_hydration = [oops];")
           "[oops]" _ (or_introl H3) H4).
Defined.

(** * Further properties *)

(** ** [http_get] *)

Lemma requests_attempts_trace bf req n replies :
  requests (attempts_trace bf req n replies) = map (fun _ => req) replies.
Proof.
  revert n. induction replies as [|rep rest IH]; intros n; [reflexivity|].
  cbn [attempts_trace]. unfold requests. rewrite omap_app.
  destruct (2 <=? n)%Z; cbn; f_equal; apply IH.
Qed.

Lemma http_get_shape network url timeout max_retries bf ua px w :
  exists replies,
    (Z.of_nat (length replies) <= Z.max 0 max_retries)%Z
    /\ snd (http_get network url timeout max_retries bf ua px w)
       = w ++ attempts_trace bf (http_request url timeout ua px) 1 replies.
Proof.
  destruct (http_get_run network url timeout max_retries bf ua px w)
    as (r & Hloop & _).
  apply http_get_loop_trace in Hloop; [|lia].
  destruct Hloop as [[Hle ->]|[Hlt (rep & rest & -> & Hlen)]].
  - exists []. split; [cbn; lia|]. now rewrite app_nil_r.
  - exists (rep :: rest). split; [cbn [length]; lia|reflexivity].
Qed.

Section RetryLoopReplies.

Variable network : world -> request -> reply.
Variable req : request.
Variable max_retries : Z.
Variable backoff_factor : Q.

(** The replies of a run of the loop: all but the last one were retried,
    and the last one decides how the loop is left. *)
Lemma http_get_loop_replies fuel attempt last_exc w r w' :
  http_get_loop network fuel req max_retries backoff_factor attempt last_exc w
  = Some (r, w') ->
  (attempt < max_retries)%Z ->
  exists new init rep,
    w' = w ++ new
    /\ gets new = init ++ [rep]
    /\ Forall (fun rep => retried rep = true) init
    /\ match attempt_outcome rep with
       | Ok resp => r = Ok (Returned resp)
       | Raise e =>
           if is_RequestException e
           then r = Ok (Exited (Some e))
                \/ (exists msg, r = Raise (ValueError msg))
           else r = Raise e
       end.
Proof.
  revert attempt last_exc w.
  induction fuel as [|fuel IH]; intros attempt last_exc w;
    cbn [http_get_loop];
    destruct (Z.ltb_spec attempt max_retries) as [Hlt|Hge];
    try discriminate; try (intros _ ?; lia).
  unfold requests_get.
  set (rep := network w req).
  destruct (attempt_outcome rep) as [resp|exc] eqn:Hout.
  { intros [= <- <-] _. exists [EvGet req rep], [], rep.
    rewrite Hout. repeat split. constructor. }
  destruct (is_RequestException exc) eqn:Hreq.
  2:{ intros [= <- <-] _. exists [EvGet req rep], [], rep.
      rewrite Hout, Hreq. repeat split. constructor. }
  destruct (Z.geb_spec (attempt + 1) max_retries) as [Hlast|Hmore].
  { intros [= <- <-] _. exists [EvGet req rep], [], rep.
    rewrite Hout, Hreq. repeat split; [constructor|now left]. }
  unfold time_sleep.
  destruct (Qle_bool 0 (backoff_factor * inject_Z (2 ^ (attempt + 1 - 1)))).
  2:{ intros [= <- <-] _. exists [EvGet req rep], [], rep.
      rewrite Hout, Hreq. repeat split; [constructor|right; eauto]. }
  unfold emit. intros Hrec _.
  apply IH in Hrec as (new & init & rep' & -> & Hgets & Hinit & Hlast); [|lia].
  exists (EvGet req rep
          :: EvSleep (backoff_factor * inject_Z (2 ^ (attempt + 1 - 1))) :: new),
    (rep :: init), rep'.
  split; [now rewrite <- !app_assoc|].
  split; [cbn [app]; rewrite <- Hgets; reflexivity|].
  split; [|exact Hlast].
  constructor; [|assumption].
  unfold retried. now rewrite (failure_outcome _ _ Hout).
Qed.

End RetryLoopReplies.

(** X1. [http_get] goes on to another attempt only after a
    [RequestException]: in every call that makes a request, each attempt
    but the last one raised a [RequestException] (from the request or from
    the status check). *)
Theorem http_get_retries_request_exceptions
    (network : world -> request -> reply) (url : string)
    (timeout max_retries : Z) (bf : Q) (ua px : option string) (w : world) :
  Forall (fun rep => retried rep = true)
    (removelast
       (gets (drop (length w)
                (snd (http_get network url timeout max_retries bf ua px w))))).
Proof.
  destruct (http_get_run network url timeout max_retries bf ua px w)
    as (r & Hloop & _).
  destruct (Z.ltb_spec 0 max_retries) as [Hpos|Hle].
  - apply http_get_loop_replies in Hloop
      as (new & init & rep & -> & Hgets & Hinit & _); [|assumption].
    rewrite drop_app_length, Hgets, removelast_last. exact Hinit.
  - apply http_get_loop_trace in Hloop as [[_ ->]|[Hlt _]]; [|lia|lia].
    rewrite drop_all. constructor.
Qed.

(** X2. When [http_get] returns a response, it is the reply to the last
    request of the call, and its status is not a 4xx or 5xx error. *)
Theorem http_get_returns_last_reply
    (network : world -> request -> reply) (url : string)
    (timeout max_retries : Z) (bf : Q) (ua px : option string) (w : world)
    (resp : response) :
  fst (http_get network url timeout max_retries bf ua px w) = Ok resp ->
  last (gets (drop (length w)
                (snd (http_get network url timeout max_retries bf ua px w))))
  = Some (Responds resp)
  /\ negb ((400 <=? status_code resp) && (status_code resp <? 600))%Z = true.
Proof.
  destruct (http_get_run network url timeout max_retries bf ua px w)
    as (r & Hloop & ->).
  intros Hok.
  destruct (Z.ltb_spec 0 max_retries) as [Hpos|Hle].
  2:{ cbn [http_get_loop] in Hloop. exfalso.
      destruct (Z.to_nat max_retries); cbn [http_get_loop] in Hloop;
        destruct (Z.ltb_spec 0 max_retries); try lia;
        injection Hloop as <- _; discriminate. }
  apply http_get_loop_replies in Hloop
    as (new & init & rep & -> & Hgets & _ & Hlast); [|assumption].
  rewrite drop_app_length, Hgets, last_snoc.
  destruct rep as [resp'|exc]; cbn [attempt_outcome] in Hlast.
  - unfold raise_for_status in Hlast.
    destruct ((400 <=? status_code resp') && (status_code resp' <? 600))%Z eqn:Hst.
    + cbn in Hlast. destruct Hlast as [->|[msg ->]]; discriminate.
    + subst r. cbn in Hok. injection Hok as ->. now rewrite Hst.
  - destruct (is_RequestException exc);
      [destruct Hlast as [->|[msg ->]]|subst r]; discriminate.
Qed.

(** X3. All the requests of one call of [http_get] are the same request,
    built from the arguments of the call; there are at most [max_retries] of
    them; a call that makes a request sleeps once less than it makes
    requests, and its last event is a request: it never sleeps after its
    last attempt. *)
Theorem http_get_requests (network : world -> request -> reply) (url : string)
    (timeout max_retries : Z) (bf : Q) (ua px : option string) (w : world) :
  let new :=
    drop (length w) (snd (http_get network url timeout max_retries bf ua px w)) in
  Forall (fun req => req = http_request url timeout ua px) (requests new)
  /\ (Z.of_nat (length (requests new)) <= Z.max 0 max_retries)%Z
  /\ (new <> [] ->
      S (length (sleeps new)) = length (requests new)
      /\ exists rep, last new = Some (EvGet (http_request url timeout ua px) rep)).
Proof.
  cbv zeta.
  destruct (http_get_shape network url timeout max_retries bf ua px w)
    as (replies & Hlen & ->).
  rewrite drop_app_length, requests_attempts_trace, length_map.
  split; [apply Forall_map, Forall_forall; reflexivity|].
  split; [assumption|].
  clear Hlen. destruct replies as [|rep rest]; [intros []; reflexivity|].
  intros _. cbn [attempts_trace length map].
  assert (Hrest : forall n rep0,
             (2 <= n)%Z ->
             length (sleeps (attempts_trace bf (http_request url timeout ua px) n rest))
             = length rest
             /\ exists rep1,
                  last (EvGet (http_request url timeout ua px) rep0
                        :: attempts_trace bf (http_request url timeout ua px) n rest)
                  = Some (EvGet (http_request url timeout ua px) rep1)).
  { induction rest as [|rep2 rest IH]; intros n rep0 Hn;
      [split; [reflexivity|eauto]|].
    cbn [attempts_trace]. destruct (Z.leb_spec 2 n) as [_|Hbad]; [|lia].
    destruct (IH (n + 1)%Z rep2) as [Hs [rep1 Hl]]; [lia|].
    split.
    - cbn [app]. change (sleeps (?a :: ?b :: ?t)) with (backoff_delay bf n :: sleeps t).
      cbn [length]. now rewrite Hs.
    - exists rep1. cbn [app]. rewrite <- Hl. reflexivity. }
  destruct (Hrest 2%Z rep) as [Hs Hl]; [lia|].
  change (2 <=? 1)%Z with false. change (1 + 1)%Z with 2%Z. cbn [app].
  split; [|exact Hl].
  change (sleeps (?a :: ?t)) with (sleeps t). now rewrite Hs.
Qed.

Lemma total_sleep_attempts_trace bf req n replies :
  (2 <= n)%Z ->
  (total_sleep (attempts_trace bf req n replies)
   == bf * inject_Z (2 ^ (n - 2) * (2 ^ Z.of_nat (length replies) - 1)))%Q.
Proof.
  revert n. induction replies as [|rep rest IH]; intros n Hn.
  - cbn. rewrite Z.mul_0_r. unfold inject_Z. now rewrite Qmult_0_r.
  - cbn [attempts_trace]. destruct (Z.leb_spec 2 n) as [_|Hbad]; [|lia].
    cbn [app]. unfold total_sleep.
    change (sleeps (?a :: ?b :: ?t)) with (backoff_delay bf n :: sleeps t).
    cbn [fold_right]. fold (total_sleep (attempts_trace bf req (n + 1) rest)).
    rewrite IH by lia. unfold backoff_delay.
    rewrite <- Qmult_plus_distr_r, <- inject_Z_plus.
    replace (2 ^ (n - 2) + 2 ^ (n + 1 - 2) * (2 ^ Z.of_nat (length rest) - 1))%Z
      with (2 ^ (n - 2) * (2 ^ Z.of_nat (length (rep :: rest)) - 1))%Z;
      [reflexivity|].
    cbn [length]. rewrite Nat2Z.inj_succ, Z.pow_succ_r by lia.
    replace (n + 1 - 2)%Z with (Z.succ (n - 2)) by lia.
    rewrite Z.pow_succ_r by lia. ring.
Qed.

(** X4. A call of [http_get] that makes [m + 1] attempts sleeps
    [backoff_factor * (2^m - 1)] seconds in all. *)
Theorem http_get_total_sleep (network : world -> request -> reply)
    (url : string) (timeout max_retries : Z) (bf : Q) (ua px : option string)
    (w : world) (m : nat) :
  let new :=
    drop (length w) (snd (http_get network url timeout max_retries bf ua px w)) in
  length (gets new) = S m ->
  (total_sleep new == bf * inject_Z (2 ^ Z.of_nat m - 1))%Q.
Proof.
  cbv zeta.
  destruct (http_get_shape network url timeout max_retries bf ua px w)
    as (replies & _ & ->).
  rewrite drop_app_length, gets_attempts_trace.
  destruct replies as [|rep rest]; [discriminate|].
  intros [= <-]. cbn [attempts_trace]. change (2 <=? 1)%Z with false.
  cbn [app]. unfold total_sleep. change (sleeps (?a :: ?t)) with (sleeps t).
  fold (total_sleep (attempts_trace bf (http_request url timeout ua px) (1 + 1) rest)).
  rewrite total_sleep_attempts_trace by lia.
  change (2 ^ (1 + 1 - 2))%Z with 1%Z. now rewrite Z.mul_1_l.
Qed.

(** X5. With a negative backoff factor and [max_retries >= 2], a first
    attempt that raises a [RequestException] is followed by no other one:
    the sleep raises [ValueError], which is what the call raises, after a
    single request and no sleep. *)
Theorem http_get_negative_backoff (network : world -> request -> reply)
    (url : string) (timeout max_retries : Z) (bf : Q) (ua px : option string)
    (w : world) :
  (bf < 0)%Q ->
  (2 <= max_retries)%Z ->
  retried (network w (http_request url timeout ua px)) = true ->
  http_get network url timeout max_retries bf ua px w
  = (Raise (ValueError "sleep length must be non-negative"),
     w ++ [EvGet (http_request url timeout ua px)
             (network w (http_request url timeout ua px))]).
Proof.
  intros Hbf Hmr Hret.
  unfold http_get, http_get_fuel.
  destruct (Z.to_nat max_retries) as [|fuel] eqn:Hfuel; [lia|].
  cbn [http_get_loop].
  destruct (Z.ltb_spec 0 max_retries) as [_|Hbad]; [|lia].
  unfold requests_get. unfold retried, failure in Hret.
  destruct (attempt_outcome _) as [resp|exc]; [discriminate|].
  rewrite Hret.
  destruct (Z.geb_spec (0 + 1) max_retries) as [Hbad|_]; [lia|].
  unfold time_sleep.
  destruct (Qle_bool 0 (bf * inject_Z (2 ^ (0 + 1 - 1)))) eqn:Hle;
    [|reflexivity].
  exfalso. apply Qle_bool_iff in Hle.
  change (inject_Z (2 ^ (0 + 1 - 1))) with 1%Q in Hle.
  rewrite Qmult_1_r in Hle.
  exact (Qlt_not_le _ _ Hbf Hle).
Qed.

(** X6. The request that [http_get] sends has the three fixed headers; it
    has a [User-Agent] header exactly when the user agent is a non-empty
    string, and then with that value; no header name occurs twice; and it is
    routed through a proxy exactly when the proxy is a non-empty string, the
    same for both schemes. *)
Theorem http_request_headers (url : string) (timeout : Z)
    (ua px : option string) :
  let req := http_request url timeout ua px in
  NoDup (map fst (req_headers req))
  /\ (forall name, name ∈ ["Accept"; "Accept-Language"; "Connection"] ->
                   name ∈ map fst (req_headers req))
  /\ (forall v, ("User-Agent", v) ∈ req_headers req
                <-> ua = Some v /\ v <> EmptyString)
  /\ (forall routes, req_proxies req = Some routes
                     <-> exists p, px = Some p /\ p <> EmptyString
                                   /\ routes = [("http", p); ("https", p)]).
Proof.
  cbv zeta. unfold http_request, _build_headers. cbn [req_headers req_proxies].
  split; [|split; [|split]].
  - destruct ua as [[|c s]|]; cbn; repeat constructor;
      rewrite ?elem_of_cons, ?elem_of_nil; intros H;
      repeat (destruct H as [H|H]; try discriminate H); exact H.
  - intros name Hname. rewrite !elem_of_cons, elem_of_nil in Hname.
    destruct ua as [[|c s]|]; cbn; rewrite !elem_of_cons; tauto.
  - intros v. destruct ua as [[|c s]|]; cbn; rewrite !elem_of_cons, elem_of_nil.
    + split; [intros H; repeat (destruct H as [H|H]; try discriminate H); tauto|].
      intros [[= <-] Hv]. now destruct Hv.
    + split.
      * intros H; repeat (destruct H as [H|H]; try discriminate H); [|tauto].
        injection H as ->. split; [reflexivity|discriminate].
      * intros [[= <-] _]. tauto.
    + split; [intros H; repeat (destruct H as [H|H]; try discriminate H); tauto|].
      intros [[=] _].
  - intros routes. destruct px as [[|c s]|]; cbn.
    + split; [discriminate|]. intros (p & [= <-] & Hp & _). now destruct Hp.
    + split.
      * intros [= <-]. eexists; repeat split. discriminate.
      * intros (p & [= <-] & _ & ->). reflexivity.
    + split; [discriminate|]. intros (p & [=] & _).
Qed.

(** X7. [safe_get] reads back what was stored under a key, also when that
    is [null]; it is not affected by the other keys; it gives the default for
    a key that was deleted and for every value that is not an object. *)
Theorem safe_get_lookup (d : gmap string json) (key other : string)
    (v dflt : json) :
  safe_get (JDict (<[key := v]> d)) key dflt = v
  /\ (key <> other ->
      safe_get (JDict (<[key := v]> d)) other dflt = safe_get (JDict d) other dflt)
  /\ safe_get (JDict (delete key d)) key dflt = dflt
  /\ (forall obj, (forall d', obj <> JDict d') -> safe_get obj key dflt = dflt).
Proof.
  unfold safe_get, dict_get_default. repeat split.
  - now rewrite lookup_insert_eq.
  - intros Hne. now rewrite lookup_insert_ne.
  - now rewrite lookup_delete_eq.
  - intros obj Hobj. destruct obj; try reflexivity. now destruct (Hobj d0).
Qed.

(** ** The base URL and the profile URL *)

Lemma rstrip_char_spec c s :
  ends_with c (rstrip_char c s) = false
  /\ exists n,
       s = (rstrip_char c s ++ string_of_list_ascii (repeat c n))%string.
Proof.
  induction s as [|a s [IHe [n IHn]]]; [split; [reflexivity|now exists 0%nat]|].
  cbn [rstrip_char].
  destruct (rstrip_char c s) as [|b r] eqn:Hr.
  - destruct (Ascii.eqb_spec a c) as [->|Hne].
    + split; [reflexivity|]. exists (S n). cbn. now rewrite IHn at 1.
    + split; [cbn; now apply Ascii.eqb_neq|].
      exists n. cbn. now rewrite IHn at 1.
  - split; [exact IHe|]. exists n. cbn. now rewrite IHn at 1.
Qed.

Lemma rstrip_char_fixed c s : ends_with c s = false -> rstrip_char c s = s.
Proof.
  induction s as [|a s IH]; [reflexivity|].
  cbn [ends_with rstrip_char]. destruct s as [|b s'].
  - intros ->. reflexivity.
  - intros H. rewrite (IH H). reflexivity.
Qed.

(** X8. The scraper keeps its base URL without the slashes at its end: the
    given URL is the kept one followed by slashes only, the kept one does
    not end with a slash, and a URL that does not end with a slash is kept
    as it is. *)
Theorem new_scraper_base_url (url : string) (timeout max_retries : Z)
    (bf : Q) (ua px : option string) :
  let kept := base_url (new_scraper url timeout max_retries bf ua px) in
  ends_with "/" kept = false
  /\ (exists n, url = (kept ++ string_of_list_ascii (repeat "/"%char n))%string)
  /\ (ends_with "/" url = false -> kept = url).
Proof.
  cbv zeta. cbn [new_scraper base_url].
  destruct (rstrip_char_spec "/" url) as [He Hn].
  split; [exact He|]. split; [exact Hn|apply rstrip_char_fixed].
Qed.

Lemma rstrip_idempotent s : PyStr.rstrip (PyStr.rstrip s) = PyStr.rstrip s.
Proof.
  induction s as [|c s IH]; [reflexivity|].
  cbn [PyStr.rstrip]. destruct (PyStr.rstrip s) as [|b r] eqn:Hr.
  - destruct (PyStr.isspace c) eqn:Hc; [reflexivity|].
    cbn. now rewrite Hc.
  - cbn [PyStr.rstrip]. cbn [PyStr.rstrip] in IH. now rewrite IH.
Qed.

Lemma strip_idempotent s : PyStr.strip (PyStr.strip s) = PyStr.strip s.
Proof.
  unfold PyStr.strip.
  assert (Hl : PyStr.lstrip (PyStr.rstrip (PyStr.lstrip s))
               = PyStr.rstrip (PyStr.lstrip s)).
  { destruct (PyStr.blank s) eqn:Hb.
    - rewrite (lstrip_blank s Hb). reflexivity.
    - destruct (lstrip_not_blank s Hb) as (c & s' & -> & Hc).
      cbn [PyStr.rstrip].
      destruct (PyStr.rstrip s'); rewrite ?Hc; cbn [PyStr.lstrip];
        rewrite Hc; reflexivity. }
  rewrite Hl. apply rstrip_idempotent.
Qed.

(** X9. A profile URL that starts with [http] once the white space around it
    is removed is used as it is, without that white space, whatever the base
    URL is; and normalising the result again does not change it. *)
Theorem normalize_absolute_profile_url (parser : page_parser)
    (config : ScraperConfig) (url : string) :
  startswith (PyStr.strip url) "http" = true ->
  _normalize_profile_url parser config url = PyStr.strip url
  /\ _normalize_profile_url parser config
       (_normalize_profile_url parser config url)
     = _normalize_profile_url parser config url.
Proof.
  intros Habs.
  assert (H1 : _normalize_profile_url parser config url = PyStr.strip url)
    by (unfold _normalize_profile_url; now rewrite Habs).
  split; [exact H1|]. rewrite H1.
  unfold _normalize_profile_url. now rewrite strip_idempotent, Habs.
Qed.

(** ** The input loader, continued *)

Lemma normalize_ok_inv (raw : gmap string json) (cfg : input_cfg) :
  _normalize_input_config raw = Ok cfg ->
  exists ps ks n,
    py_or (dict_get raw "profiles") (JList []) = JList ps
    /\ py_or (dict_get raw "keywords") (JList []) = JList ks
    /\ py_int (dict_get_default raw "maxItemsPerKeyword" (JInt 20)) = Ok n
    /\ (0 < n)%Z
    /\ cfg = {| profiles := str_entries ps; keywords := str_entries ks;
                maxItemsPerKeyword := n |}.
Proof.
  unfold _normalize_input_config.
  destruct (py_or (dict_get raw "profiles") (JList [])) as [| | | | |ps|];
    try discriminate.
  destruct (py_or (dict_get raw "keywords") (JList [])) as [| | | | |ks|];
    try discriminate.
  destruct (py_int _) as [n|e]; [|destruct e; discriminate].
  destruct (Z.leb_spec n 0) as [Hle|Hpos]; [discriminate|].
  intros [= <-]. exists ps, ks, n. repeat split; assumption.
Qed.

Lemma normalize_accepts (raw : gmap string json) :
  refused raw = false -> exists cfg, _normalize_input_config raw = Ok cfg.
Proof.
  unfold refused, _normalize_input_config. intros H.
  apply orb_false_iff in H as [H Hmax]. apply orb_false_iff in H as [Hp Hk].
  destruct (py_or_list _ Hp) as [ps ->]. destruct (py_or_list _ Hk) as [ks ->].
  destruct (py_int _) as [n|e]; [|discriminate].
  rewrite Hmax. eauto.
Qed.

Lemma str_entries_nonblank entries :
  Forall (fun s => PyStr.blank s = false) (str_entries entries).
Proof.
  induction entries as [|v rest IH]; [constructor|].
  destruct v as [| | | |s| |]; cbn [str_entries]; try exact IH.
  rewrite strip_truthy. destruct (PyStr.blank s) eqn:Hb; cbn [negb];
    [exact IH|now constructor].
Qed.

Lemma str_entries_strings l :
  Forall (fun s => PyStr.blank s = false) l -> str_entries (map JStr l) = l.
Proof.
  induction 1 as [|s l Hs _ IH]; [reflexivity|].
  cbn [map str_entries]. now rewrite strip_truthy, Hs, IH.
Qed.

(** X10. The loader returns a configuration exactly when [profiles] and
    [keywords] are lists or falsy and [int()] turns [maxItemsPerKeyword] (20
    when the key is missing) into a positive number. *)
Theorem loader_accepts_iff (raw : gmap string json) :
  (exists cfg, _normalize_input_config raw = Ok cfg) <-> refused raw = false.
Proof.
  split.
  - intros [cfg Hok]. destruct (refused raw) eqn:Hbad; [|reflexivity].
    destruct (normalize_refused raw Hbad) as (e & He). congruence.
  - apply normalize_accepts.
Qed.

(** X11. What the loader returns is well formed: the maximum is positive
    and every profile and every keyword has a character that is not white
    space. *)
Theorem loader_result_well_formed (raw : gmap string json) (cfg : input_cfg) :
  _normalize_input_config raw = Ok cfg ->
  (0 < maxItemsPerKeyword cfg)%Z
  /\ Forall (fun s => PyStr.blank s = false) (profiles cfg)
  /\ Forall (fun s => PyStr.blank s = false) (keywords cfg).
Proof.
  intros H. apply normalize_ok_inv in H as (ps & ks & n & _ & _ & _ & Hn & ->).
  cbn [profiles keywords maxItemsPerKeyword].
  repeat split; [assumption|apply str_entries_nonblank..].
Qed.

(** X12. The loader is idempotent: given the dictionary that it returned, it
    returns the same dictionary. *)
Theorem loader_idempotent (raw : gmap string json) (cfg : input_cfg) :
  _normalize_input_config raw = Ok cfg ->
  _normalize_input_config (cfg_dict cfg) = Ok cfg.
Proof.
  intros H. apply normalize_ok_inv in H as (ps & ks & n & _ & _ & _ & Hn & ->).
  unfold _normalize_input_config, cfg_dict, dict_get, dict_get_default.
  cbn [profiles keywords maxItemsPerKeyword].
  rewrite lookup_insert_eq.
  rewrite lookup_insert_ne, lookup_insert_eq by discriminate.
  rewrite !lookup_insert_ne, lookup_singleton_eq by discriminate.
  cbn [from_option]. unfold Datatypes.id.
  assert (Hor : forall l, py_or (JList l) (JList []) = JList l)
    by (intros []; reflexivity).
  rewrite !Hor. cbn [py_int].
  destruct (Z.leb_spec n 0) as [Hle|_]; [lia|].
  now rewrite !str_entries_strings by apply str_entries_nonblank.
Qed.

(** ** Deduplication, continued *)

Set Warnings "-clear-no-such-hyp".

Ltac set_equal :=
  apply set_eq; intros ?;
  rewrite ?elem_of_union, ?elem_of_singleton, ?elem_of_empty;
  naive_solver.

Lemma first_seen_keys seen artists key :
  key ∈ omap artist_key (first_seen seen artists)
  <-> key ∈ omap artist_key artists /\ key ∉ seen.
Proof.
  revert seen. induction artists as [|a rest IH]; intros seen;
    cbn [first_seen omap list_omap]; [rewrite elem_of_nil; tauto|].
  destruct (artist_key a) as [key'|] eqn:Hkey; cbn [omap list_omap]; [|rewrite Hkey; apply IH].
  rewrite elem_of_cons.
  destruct (bool_decide (key' ∈ seen)) eqn:Hin.
  - apply bool_decide_eq_true in Hin. rewrite IH. naive_solver.
  - apply bool_decide_eq_false in Hin. cbn [omap list_omap]. rewrite Hkey.
    rewrite elem_of_cons, IH, elem_of_union, elem_of_singleton.
    destruct (decide (key = key')) as [->|Hne]; tauto.
Qed.

Lemma distinct_keys_nodup seen artists :
  distinct_keys seen artists -> NoDup (omap artist_key artists).
Proof.
  assert (Hout : forall l s k, distinct_keys s l -> k ∈ omap artist_key l -> k ∉ s).
  { induction l as [|a rest IH]; intros s k; cbn [distinct_keys omap list_omap];
      [rewrite elem_of_nil; tauto|].
    destruct (artist_key a) as [key'|]; [|apply IH].
    intros [Hnew Hrest]. rewrite elem_of_cons. intros [->|Hk]; [assumption|].
    specialize (IH _ _ Hrest Hk). rewrite elem_of_union in IH. tauto. }
  revert seen. induction artists as [|a rest IH]; intros seen;
    cbn [distinct_keys omap list_omap]; [constructor|].
  destruct (artist_key a) as [key'|]; [|apply IH].
  intros [Hnew Hrest]. constructor; [|now apply (IH _ Hrest)].
  intros Hk. apply (Hout _ _ _ Hrest) in Hk.
  rewrite elem_of_union, elem_of_singleton in Hk. tauto.
Qed.

Lemma first_seen_app seen l1 l2 :
  first_seen seen (l1 ++ l2)
  = first_seen seen l1
    ++ first_seen (seen ∪ list_to_set (omap artist_key l1)) l2.
Proof.
  revert seen. induction l1 as [|a rest IH]; intros seen;
    cbn [app first_seen omap list_omap].
  - f_equal. cbn. set_equal.
  - destruct (artist_key a) as [key|]; [|rewrite IH; reflexivity].
    cbn [list_to_set].
    destruct (bool_decide (key ∈ seen)) eqn:Hin.
    + apply bool_decide_eq_true in Hin. rewrite IH. do 2 f_equal. set_equal.
    + rewrite IH. cbn [app]. do 3 f_equal. set_equal.
Qed.

Lemma first_seen_twice seen seen' artists :
  first_seen seen (first_seen seen' artists)
  = first_seen (seen ∪ seen') artists.
Proof.
  revert seen seen'. induction artists as [|a rest IH]; intros seen seen';
    cbn [first_seen]; [reflexivity|].
  destruct (artist_key a) as [key|] eqn:Hkey.
  2:{ cbn [first_seen]. rewrite Hkey. f_equal. apply IH. }
  destruct (bool_decide (key ∈ seen')) eqn:Hin'.
  - apply bool_decide_eq_true in Hin'.
    rewrite bool_decide_eq_true_2 by (now apply elem_of_union_r). apply IH.
  - apply bool_decide_eq_false in Hin'. cbn [first_seen]. rewrite Hkey.
    destruct (bool_decide (key ∈ seen)) eqn:Hin.
    + apply bool_decide_eq_true in Hin.
      rewrite bool_decide_eq_true_2 by (now apply elem_of_union_l).
      rewrite IH. f_equal. set_equal.
    + apply bool_decide_eq_false in Hin.
      rewrite bool_decide_eq_false_2
        by (rewrite elem_of_union; tauto).
      f_equal. rewrite IH. f_equal. set_equal.
Qed.

Lemma first_seen_absent seen artists key :
  key ∉ omap artist_key artists ->
  first_seen ({[key]} ∪ seen) artists = first_seen seen artists.
Proof.
  revert seen. induction artists as [|a rest IH]; intros seen;
    cbn [first_seen omap list_omap]; [reflexivity|].
  destruct (artist_key a) as [key'|]; [|intros H; f_equal; now apply IH].
  rewrite elem_of_cons. intros Habs.
  assert (Hne : key <> key') by tauto.
  assert (Hrest : key ∉ omap artist_key rest) by tauto.
  destruct (bool_decide (key' ∈ seen)) eqn:Hin.
  - apply bool_decide_eq_true in Hin.
    rewrite bool_decide_eq_true_2 by (now apply elem_of_union_r).
    now apply IH.
  - apply bool_decide_eq_false in Hin.
    rewrite bool_decide_eq_false_2
      by (rewrite elem_of_union, elem_of_singleton; intros [?|?]; congruence).
    f_equal. rewrite <- (IH ({[key']} ∪ seen) Hrest). f_equal. set_equal.
Qed.

Lemma first_seen_filter (P : option dedup_key -> bool) seen artists :
  filter (fun a => P (artist_key a) = true) (first_seen seen artists)
  = first_seen seen (filter (fun a => P (artist_key a) = true) artists).
Proof.
  revert seen. induction artists as [|a rest IH]; intros seen;
    cbn [first_seen]; [reflexivity|].
  rewrite (filter_cons _ a rest).
  destruct (decide (P (artist_key a) = true)) as [HP|HP].
  - cbn [first_seen]. destruct (artist_key a) as [key|] eqn:Hkey.
    + destruct (bool_decide (key ∈ seen)); [apply IH|].
      rewrite filter_cons_True by (rewrite Hkey; exact HP). f_equal. apply IH.
    + rewrite filter_cons_True by (rewrite Hkey; exact HP). f_equal. apply IH.
  - destruct (artist_key a) as [key|] eqn:Hkey.
    + destruct (bool_decide (key ∈ seen)); [apply IH|].
      rewrite filter_cons_False by (rewrite Hkey; exact HP).
      rewrite IH. apply first_seen_absent.
      intros Hk. apply list_elem_of_omap in Hk as (b & Hb & Hkb).
      apply list_elem_of_filter in Hb as [HPb _]. congruence.
    + rewrite filter_cons_False by (rewrite Hkey; exact HP). apply IH.
Qed.

(** X13. No two records of the result of [_deduplicate_artists] have the
    same key. *)
Theorem deduplicate_keys_distinct (artists : list artist) :
  NoDup (omap artist_key (_deduplicate_artists artists)).
Proof.
  rewrite deduplicate_first_seen.
  apply (distinct_keys_nodup ∅), first_seen_distinct.
Qed.

(** X14. [_deduplicate_artists] loses no identity and invents none: the keys
    of the result are the keys of the input. *)
Theorem deduplicate_keeps_keys (artists : list artist) (key : dedup_key) :
  key ∈ omap artist_key (_deduplicate_artists artists)
  <-> key ∈ omap artist_key artists.
Proof.
  rewrite deduplicate_first_seen, first_seen_keys.
  split; [tauto|]. intros H. split; [assumption|apply not_elem_of_empty].
Qed.

(** X15. Records that come later never change what was kept before, and
    deduplicating two batches apart and then together gives what
    deduplicating them together gives. *)
Theorem deduplicate_batches (batch1 batch2 : list artist) :
  _deduplicate_artists batch1 `prefix_of` _deduplicate_artists (batch1 ++ batch2)
  /\ _deduplicate_artists
       (_deduplicate_artists batch1 ++ _deduplicate_artists batch2)
     = _deduplicate_artists (batch1 ++ batch2).
Proof.
  rewrite !deduplicate_first_seen, !first_seen_app.
  split; [eexists; reflexivity|].
  rewrite !first_seen_twice.
  replace (∅ ∪ list_to_set (omap artist_key (first_seen ∅ batch1)) ∪ ∅)
    with (∅ ∪ list_to_set (omap artist_key batch1) : gset dedup_key).
  { now rewrite (left_id_L ∅ (∪)). }
  apply set_eq. intros key.
  rewrite !elem_of_union, !elem_of_list_to_set, first_seen_keys.
  rewrite elem_of_empty. tauto.
Qed.

(** X16. The first record of the input is always kept, as the first record
    of the result, and the result is not longer than the input. *)
Theorem deduplicate_head_length (artists : list artist) :
  head (_deduplicate_artists artists) = head artists
  /\ (length (_deduplicate_artists artists) <= length artists)%nat.
Proof.
  rewrite deduplicate_first_seen. split.
  - destruct artists as [|a rest]; [reflexivity|]. cbn [first_seen].
    destruct (artist_key a) as [key|]; [|reflexivity].
    rewrite bool_decide_eq_false_2 by apply not_elem_of_empty. reflexivity.
  - apply sublist_length, first_seen_sublist.
Qed.

(** X17. Deduplication commutes with every selection of the records by
    their key. Records with an [id] and records without one are so
    deduplicated apart from each other: a record with an [id] and a later
    record without one are both kept, whatever their [permalink_url]s. *)
Theorem deduplicate_by_key_class (P : option dedup_key -> bool)
    (artists : list artist) :
  filter (fun a => P (artist_key a) = true) (_deduplicate_artists artists)
  = _deduplicate_artists (filter (fun a => P (artist_key a) = true) artists)
  /\ forall a b, id a <> None -> id b = None ->
                 _deduplicate_artists [a; b] = [a; b].
Proof.
  rewrite !deduplicate_first_seen. split; [apply first_seen_filter|].
  intros a b Ha Hb. rewrite deduplicate_first_seen.
  cbn [first_seen]. unfold artist_key at 1.
  destruct (id a) as [i|]; [|congruence].
  rewrite bool_decide_eq_false_2 by apply not_elem_of_empty.
  f_equal. unfold artist_key. rewrite Hb.
  destruct (permalink_url b) as [u|]; [|reflexivity].
  destruct (PyStr.truthy u); [|reflexivity].
  rewrite bool_decide_eq_false_2; [reflexivity|].
  rewrite elem_of_union, elem_of_singleton, elem_of_empty.
  intros [[=]|[]].
Qed.

(** ** The scraper, continued *)

Lemma network_only_ret {A} (a : A) : network_only (ret a).
Proof. intros w r w' [= <- <-]. exists []. now rewrite app_nil_r. Qed.

Lemma network_only_raise {A} (e : exn) : network_only (@raise A e).
Proof. intros w r w' [= <- <-]. exists []. now rewrite app_nil_r. Qed.

Lemma network_only_bind {A B} (c : M A) (k : A -> M B) :
  network_only c -> (forall a, network_only (k a)) -> network_only (bind c k).
Proof.
  intros Hc Hk w r w'. unfold bind.
  destruct (c w) as [[a|e] w1] eqn:Hcw;
    destruct (Hc _ _ _ Hcw) as (new1 & -> & Hx1).
  - intros Hkw. destruct (Hk _ _ _ _ Hkw) as (new2 & -> & Hx2).
    exists (new1 ++ new2). rewrite app_assoc. split; [reflexivity|].
    unfold exports in *. now rewrite omap_app, Hx1, Hx2.
  - intros [= <- <-]. eauto.
Qed.

Lemma network_only_try_except {A} (c : M A) (handler : exn -> M A) :
  network_only c -> (forall e, network_only (handler e)) ->
  network_only (try_except c handler).
Proof.
  intros Hc Hh w r w'. unfold try_except.
  destruct (c w) as [[a|e] w1] eqn:Hcw;
    destruct (Hc _ _ _ Hcw) as (new1 & -> & Hx1).
  - intros [= <- <-]. eauto.
  - destruct (is_Exception e); [|intros [= <- <-]; eauto].
    intros Hhw. destruct (Hh _ _ _ _ Hhw) as (new2 & -> & Hx2).
    exists (new1 ++ new2). rewrite app_assoc. split; [reflexivity|].
    unfold exports in *. now rewrite omap_app, Hx1, Hx2.
Qed.

Lemma exports_attempts_trace bf req n replies :
  exports (attempts_trace bf req n replies) = [].
Proof.
  revert n. induction replies as [|rep rest IH]; intros n; [reflexivity|].
  cbn [attempts_trace]. unfold exports. rewrite omap_app.
  destruct (2 <=? n)%Z; cbn; apply IH.
Qed.

Lemma network_only_http_get network url timeout max_retries bf ua px :
  network_only (http_get network url timeout max_retries bf ua px).
Proof.
  intros w r w' Hrun.
  destruct (http_get_shape network url timeout max_retries bf ua px w)
    as (replies & _ & Hw).
  rewrite Hrun in Hw. cbn [snd] in Hw. subst w'.
  eexists; split; [reflexivity|apply exports_attempts_trace].
Qed.

Section ScraperEffects.

Variable network : world -> request -> reply.
Variable parser : page_parser.
Variable config : ScraperConfig.

Lemma network_only_fetch url :
  network_only (fetch_artist_profile network parser config url).
Proof.
  unfold fetch_artist_profile, scraper_get.
  apply network_only_bind; [apply network_only_http_get|].
  intros resp. destruct (_find_user_block _ _); apply network_only_ret.
Qed.

Lemma network_only_collect_profiles max_items links artists :
  network_only (collect_profiles network parser config max_items links artists).
Proof.
  revert artists. induction links as [|url rest IH]; intros artists;
    cbn [collect_profiles]; [apply network_only_ret|].
  destruct (len_ge artists max_items); [apply network_only_ret|].
  apply network_only_bind.
  - apply network_only_try_except; [apply network_only_fetch|].
    intros e. apply network_only_ret.
  - intros [a|]; apply IH.
Qed.

Lemma network_only_search keyword max_items :
  network_only (search_artists network parser config keyword max_items).
Proof.
  unfold search_artists.
  destruct (negb _); [apply network_only_raise|].
  apply network_only_bind; [apply network_only_http_get|].
  intros resp. destruct (len_ge _ _); [apply network_only_ret|].
  apply network_only_bind; [apply network_only_collect_profiles|].
  intros artists. apply network_only_ret.
Qed.

Lemma collect_hydration_nonpositive max_items user_entries :
  (max_items <= 0)%Z ->
  collect_hydration parser max_items user_entries [] = [].
Proof.
  intros Hle. destruct user_entries as [|user_data rest]; [reflexivity|].
  cbn [collect_hydration]. unfold len_ge. cbn [length].
  destruct (Z.geb_spec (Z.of_nat 0) max_items) as [_|Hlt]; [reflexivity|lia].
Qed.

End ScraperEffects.


(** X19. With [max_items <= 0] and a keyword that is not blank,
    [search_artists] still sends the request for the search page; it fetches
    no profile, and returns the empty list when that request succeeds. *)
Theorem search_artists_nonpositive (network : world -> request -> reply)
    (parser : page_parser) (config : ScraperConfig) (keyword : string)
    (max_items : Z) (w : world) :
  (max_items <= 0)%Z ->
  PyStr.blank keyword = false ->
  search_artists network parser config keyword max_items w
  = bind (scraper_get network config
            (base_url config ++ "/search/people?q="
             ++ quote parser (PyStr.strip keyword))%string)
      (fun _ => ret []) w.
Proof.
  intros Hle Hkw. unfold search_artists. rewrite strip_truthy, Hkw.
  cbn [negb]. unfold bind.
  destruct (scraper_get network config _ w) as [[resp|e1] w1]; [|reflexivity].
  rewrite collect_hydration_nonpositive by assumption.
  unfold len_ge. cbn [length].
  destruct (Z.geb_spec (Z.of_nat 0) max_items) as [_|Hlt]; [|lia].
  now rewrite slice_to_nil.
Qed.

(** X20. The events of a call of [fetch_artist_profile] are those of one
    call of [http_get] on the normalised profile URL: its requests go to
    that URL only, there are at most [max_retries] of them, and nothing is
    written out. When that [http_get] raises, [fetch_artist_profile] raises
    the same exception. *)
Theorem fetch_artist_profile_requests (network : world -> request -> reply)
    (parser : page_parser) (config : ScraperConfig) (url : string) (w : world) :
  let run := fetch_artist_profile network parser config url w in
  let target := _normalize_profile_url parser config url in
  let new := drop (length w) (snd run) in
  snd run = snd (scraper_get network config target w)
  /\ snd run = w ++ new
  /\ Forall (fun req => req_url req = target) (requests new)
  /\ (Z.of_nat (length (requests new)) <= Z.max 0 (max_retries config))%Z
  /\ exports new = []
  /\ forall e, fst (scraper_get network config target w) = Raise e ->
               fst run = Raise e.
Proof.
  cbv zeta. unfold fetch_artist_profile, bind, scraper_get.
  destruct (http_get_shape network (_normalize_profile_url parser config url)
              (timeout config) (max_retries config) (backoff_factor config)
              (user_agent config) (proxy config) w) as (replies & Hlen & Hw).
  destruct (http_get network _ _ _ _ _ _ w) as [[resp|e1] w1];
    cbn [fst snd] in *; subst w1;
    [destruct (_find_user_block parser _); unfold ret; cbn [fst snd]|..];
    rewrite drop_app_length, requests_attempts_trace, length_map;
    (split; [reflexivity|]); (split; [reflexivity|]);
    (split; [apply Forall_map, Forall_forall; reflexivity|]);
    (split; [assumption|]); (split; [apply exports_attempts_trace|]);
    intros e H; try discriminate H; injection H as ->; reflexivity.
Qed.

(** ** The run of [main] *)

Lemma first_seen_head artists : head (first_seen ∅ artists) = head artists.
Proof.
  destruct artists as [|a rest]; [reflexivity|]. cbn [first_seen].
  destruct (artist_key a) as [key|]; [|reflexivity].
  rewrite bool_decide_eq_false_2 by apply not_elem_of_empty. reflexivity.
Qed.

Section MainEffects.

Variable network : world -> request -> reply.
Variable parser : page_parser.
Variable scraper : ScraperConfig.

Lemma network_only_fetch_profiles urls all_artists :
  network_only (fetch_profiles network parser scraper urls all_artists).
Proof.
  revert all_artists. induction urls as [|url rest IH]; intros all_artists;
    cbn [fetch_profiles]; [apply network_only_ret|].
  apply network_only_bind; [apply network_only_fetch|].
  intros [a|]; apply IH.
Qed.

Lemma network_only_search_keywords max_items kws all_artists :
  network_only (search_keywords network parser scraper max_items kws all_artists).
Proof.
  revert all_artists. induction kws as [|keyword rest IH]; intros all_artists;
    cbn [search_keywords]; [apply network_only_ret|].
  apply network_only_bind; [|intros all'; apply IH].
  apply network_only_try_except; [|intros e; apply network_only_ret].
  apply network_only_bind; [apply network_only_search|].
  intros artists. apply network_only_ret.
Qed.

End MainEffects.

(** X21. When the input file is missing, cannot be read or parsed, or does
    not hold a JSON object, [main] ends with [SystemExit] and adds no event
    to the run: it sends no request and writes no output. *)
Theorem main_unusable_input (network : world -> request -> reply)
    (parser : page_parser) (scraper : ScraperConfig) (input_exists : bool)
    (loaded : result json) (w : world) :
  input_exists = false
  \/ (exists e, loaded = Raise e /\ is_Exception e = true)
  \/ (exists v, loaded = Ok v /\ forall d, v <> JDict d) ->
  exists arg,
    main network parser input_exists loaded scraper w
    = (Raise (SystemExit arg), w).
Proof.
  unfold main. intros [->|Hbad]; [eexists; reflexivity|].
  destruct input_exists; [|eexists; reflexivity]. cbn [negb].
  destruct Hbad as [(e & -> & He)|(v & -> & Hv)].
  - rewrite He. eexists; reflexivity.
  - destruct v; try (eexists; reflexivity). now destruct (Hv d).
Qed.

(** X22. [main] writes the output at most once, as the last event of the
    run and only when it then ends normally; what it writes is not empty and
    has no two records with the same key. *)
Theorem main_exports_once (network : world -> request -> reply)
    (parser : page_parser) (scraper : ScraperConfig) (input_exists : bool)
    (loaded : result json) (w : world) :
  let run := main network parser input_exists loaded scraper w in
  exists new,
    snd run = w ++ new
    /\ match exports new with
       | [] => True
       | [written] =>
           fst run = Ok tt
           /\ written <> []
           /\ NoDup (omap artist_key written)
           /\ last new = Some (EvExport written)
       | _ => False
       end.
Proof.
  cbv zeta. unfold main.
  assert (Hnone : forall e : exn,
             exists new, snd (@raise unit e w) = w ++ new
                         /\ match exports new with
                            | [] => True
                            | [written] =>
                                fst (@raise unit e w) = Ok tt
                                /\ written <> []
                                /\ NoDup (omap artist_key written)
                                /\ last new = Some (EvExport written)
                            | _ => False
                            end).
  { intros e. exists []. cbn. now rewrite app_nil_r. }
  destruct (negb input_exists); [apply Hnone|].
  destruct (match loaded with
            | Ok (JDict raw_input_cfg) => _normalize_input_config raw_input_cfg
            | Ok _ => Raise (AttributeError "object has no attribute 'get'")
            | Raise e => Raise e
            end) as [cfg|e]; [|destruct (is_Exception e); apply Hnone].
  unfold bind.
  destruct (fetch_profiles network parser scraper (profiles cfg) [] w)
    as [[all1|e1] w1] eqn:Hfetch;
    destruct (network_only_fetch_profiles _ _ _ _ _ _ _ _ Hfetch)
      as (new1 & -> & Hx1).
  2:{ exists new1. cbn [fst snd]. now rewrite Hx1. }
  destruct (search_keywords network parser scraper (maxItemsPerKeyword cfg)
              (keywords cfg) all1 (w ++ new1)) as [[all2|e2] w2] eqn:Hsearch;
    destruct (network_only_search_keywords _ _ _ _ _ _ _ _ _ Hsearch)
      as (new2 & -> & Hx2).
  2:{ exists (new1 ++ new2). cbn [fst snd]. rewrite app_assoc.
      unfold exports in *. now rewrite omap_app, Hx1, Hx2. }
  destruct all2 as [|a rest].
  - exists (new1 ++ new2). cbn [ret fst snd]. rewrite app_assoc.
    unfold exports in *. now rewrite omap_app, Hx1, Hx2.
  - exists (new1 ++ new2 ++ [EvExport (_deduplicate_artists (a :: rest))]).
    unfold export_to_json, emit. cbn [fst snd].
    split; [now rewrite !app_assoc|].
    unfold exports in *. rewrite !omap_app, Hx1, Hx2. cbn [omap list_omap app].
    split; [reflexivity|]. rewrite deduplicate_first_seen.
    split; [|split].
    + intros Hnil. pose proof (first_seen_head (a :: rest)) as Hhead.
      rewrite Hnil in Hhead. discriminate Hhead.
    + apply (distinct_keys_nodup ∅), first_seen_distinct.
    + now rewrite !app_assoc, last_snoc.
Qed.

(** X23. A profile whose fetch raises ends the run: when the fetch of the
    first profile of a valid configuration raises, [main] raises the same
    exception, with nothing done after the fetch; no keyword is searched and
    nothing is written. *)
Theorem main_profile_failure (network : world -> request -> reply)
    (parser : page_parser) (scraper : ScraperConfig)
    (raw : gmap string json) (cfg : input_cfg) (url : string)
    (rest : list string) (w w1 : world) (e : exn) :
  _normalize_input_config raw = Ok cfg ->
  profiles cfg = url :: rest ->
  fetch_artist_profile network parser scraper url w = (Raise e, w1) ->
  main network parser true (Ok (JDict raw)) scraper w = (Raise e, w1).
Proof.
  intros Hcfg Hprofiles Hfetch. unfold main. cbn [negb].
  rewrite Hcfg, Hprofiles. cbn [fetch_profiles]. unfold bind.
  now rewrite Hfetch.
Qed.


(** ** The primary hydration pattern *)

Lemma strip_prefix_app p s rest :
  strip_prefix p s = Some rest -> s = (p ++ rest)%string.
Proof.
  revert s. induction p as [|a p IH]; intros s; cbn [strip_prefix].
  - now intros [= ->].
  - destruct s as [|b s]; [discriminate|].
    destruct (Ascii.eqb_spec a b) as [->|Hne]; [|discriminate].
    intros H. now rewrite (IH _ H).
Qed.

Lemma lstrip_app s :
  exists ws, s = (ws ++ PyStr.lstrip s)%string /\ PyStr.blank ws = true.
Proof.
  induction s as [|c s (ws & Hs & Hws)]; [now exists EmptyString|].
  cbn [PyStr.lstrip]. destruct (PyStr.isspace c) eqn:Hc.
  - exists (String c ws). split; [|cbn; now rewrite Hc].
    change (String c s = String c (ws ++ PyStr.lstrip s))%string.
    f_equal. exact Hs.
  - now exists EmptyString.
Qed.

Lemma string_app_assoc (s1 s2 s3 : string) :
  ((s1 ++ s2) ++ s3 = s1 ++ (s2 ++ s3))%string.
Proof.
  induction s1 as [|c s1 IH]; [reflexivity|].
  change (String c ((s1 ++ s2) ++ s3) = String c (s1 ++ (s2 ++ s3)))%string.
  now rewrite IH.
Qed.

Lemma string_app_nil_r (s : string) : (s ++ "")%string = s.
Proof.
  induction s as [|c s IH]; [reflexivity|].
  change (String c (s ++ "") = String c s)%string. now rewrite IH.
Qed.

Lemma string_of_list_ascii_snoc l c s :
  (string_of_list_ascii (l ++ [c]) ++ s
   = string_of_list_ascii l ++ String c s)%string.
Proof.
  induction l as [|a l IH]; [reflexivity|].
  change (String a (string_of_list_ascii (l ++ [c]) ++ s)
          = String a (string_of_list_ascii l ++ String c s))%string.
  now rewrite IH.
Qed.

Lemma lazy_body_sound taken s g :
  lazy_body taken s = Some g ->
  exists body post,
    s = (body ++ "];" ++ post)%string
    /\ g = (String "[" (string_of_list_ascii (rev taken) ++ body) ++ "]")%string
    /\ occurs newline body = false
    /\ (taken = [] -> body <> EmptyString).
Proof.
  revert taken. induction s as [|c s IH]; intros taken; [discriminate|].
  cbn [lazy_body].
  assert (Hmore :
            (if Ascii.eqb c newline then None else lazy_body (c :: taken) s)
            = Some g ->
            exists body post,
              String c s = (body ++ "];" ++ post)%string
              /\ g = (String "[" (string_of_list_ascii (rev taken) ++ body)
                      ++ "]")%string
              /\ occurs newline body = false
              /\ (taken = [] -> body <> EmptyString)).
  { destruct (Ascii.eqb c newline) eqn:Hnl; [discriminate|].
    intros H. apply IH in H as (body & post & -> & -> & Hocc & _).
    exists (String c body), post. split; [reflexivity|].
    split; [cbn [rev]; now rewrite string_of_list_ascii_snoc|].
    split; [cbn [occurs]; now rewrite Hnl, Hocc|discriminate]. }
  destruct taken as [|t taken']; [exact Hmore|].
  destruct (startswith (String c s) "];") eqn:Hclose; [|exact Hmore].
  intros [= Hg]. unfold startswith in Hclose.
  destruct (strip_prefix "];" (String c s)) as [post|] eqn:Hpost;
    [|discriminate].
  apply strip_prefix_app in Hpost. exists EmptyString, post.
  split; [exact Hpost|]. split; [|split; [reflexivity|discriminate]].
  now rewrite <- Hg, string_app_nil_r.
Qed.

(** X25. What the primary hydration pattern captures is a piece of the
    page: the page holds [window.__sc_hydration], white space, [=], white
    space, the captured text and a semicolon, and the captured text is a
    bracketed text with no line break and at least one character between
    the brackets. *)
Theorem pattern_search_sound (html captured : string) :
  pattern_search html = Some captured ->
  exists before ws1 ws2 body after,
    html = (before ++ "window.__sc_hydration" ++ ws1 ++ "=" ++ ws2
            ++ captured ++ ";" ++ after)%string
    /\ PyStr.blank ws1 = true
    /\ PyStr.blank ws2 = true
    /\ captured = (String "[" body ++ "]")%string
    /\ body <> EmptyString
    /\ occurs newline body = false.
Proof.
  assert (Hhere : forall s, match_here s = Some captured ->
            exists ws1 ws2 body after,
              s = ("window.__sc_hydration" ++ ws1 ++ "=" ++ ws2
                   ++ captured ++ ";" ++ after)%string
              /\ PyStr.blank ws1 = true /\ PyStr.blank ws2 = true
              /\ captured = (String "[" body ++ "]")%string
              /\ body <> EmptyString /\ occurs newline body = false).
  { intros s. unfold match_here, match_assignment.
    destruct (strip_prefix "window.__sc_hydration" s) as [rest|] eqn:Hpre;
      [|discriminate].
    apply strip_prefix_app in Hpre as ->.
    destruct (lstrip_app rest) as (ws1 & Hrest & Hws1).
    destruct (PyStr.lstrip rest) as [|c1 s1]; [discriminate|].
    destruct (Ascii.eqb_spec c1 "="%char) as [->|Hne];
      [|now destruct c1 as [[] [] [] [] [] [] [] []]].
    destruct (lstrip_app s1) as (ws2 & Hs1 & Hws2).
    destruct (PyStr.lstrip s1) as [|c2 s2]; [discriminate|].
    destruct (Ascii.eqb_spec c2 "["%char) as [->|Hne];
      [|now destruct c2 as [[] [] [] [] [] [] [] []]].
    intros Hbody. apply lazy_body_sound in Hbody
      as (body & after & -> & Hcap & Hocc & Hne).
    exists ws1, ws2, body, after. cbn [rev string_of_list_ascii] in Hcap.
    change (("" ++ body)%string) with body in Hcap.
    repeat split; try assumption; [|now apply Hne].
    rewrite Hrest, Hs1, Hcap. f_equal.
    change (String "[" body ++ "]")%string with ("[" ++ body ++ "]")%string.
    change (String "=" (ws2 ++ String "[" (body ++ "];" ++ after)))%string
      with ("=" ++ ws2 ++ "[" ++ body ++ "]" ++ ";" ++ after)%string.
    now rewrite !string_app_assoc. }
  induction html as [|c html IH]; cbn [pattern_search].
  - destruct (match_here EmptyString) as [g|] eqn:Hm; [|discriminate].
    intros [= ->]. destruct (Hhere _ Hm) as (ws1 & ws2 & body & after & H).
    exists EmptyString, ws1, ws2, body, after. exact H.
  - destruct (match_here (String c html)) as [g|] eqn:Hm.
    + intros [= ->]. destruct (Hhere _ Hm) as (ws1 & ws2 & body & after & H).
      exists EmptyString, ws1, ws2, body, after. exact H.
    + intros Hrec. apply IH in Hrec
        as (before & ws1 & ws2 & body & after & -> & H).
      exists (String c before), ws1, ws2, body, after.
      split; [reflexivity|exact H].
Qed.

(** ** The further properties at sample inputs *)

Lemma http_get_returns_last_reply_witness :
  fst (http_get Sample.net_304 "https://soundcloud.com/a" 15 3 (1 # 2) None None [])
  = Ok {| status_code := 304; text := "" |}
  /\ last (gets (snd (http_get Sample.net_304 "https://soundcloud.com/a" 15 3
                        (1 # 2) None None [])))
     = Some (Responds {| status_code := 304; text := "" |})
  /\ negb ((400 <=? 304) && (304 <? 600))%Z = true.
Proof.
  assert (H : fst (http_get Sample.net_304 "https://soundcloud.com/a" 15 3
                     (1 # 2) None None [])
              = Ok {| status_code := 304; text := "" |}) by reflexivity.
  split; [exact H|].
  exact (http_get_returns_last_reply Sample.net_304 "https://soundcloud.com/a"
           15 3 (1 # 2) None None [] _ H).
Defined.

Lemma http_get_total_sleep_witness :
  length (gets (snd (Sample.down_run 3 (1 # 2)))) = 3%nat
  /\ (total_sleep (snd (Sample.down_run 3 (1 # 2)))
      == (1 # 2) * inject_Z (2 ^ Z.of_nat 2 - 1))%Q.
Proof.
  assert (H : length (gets (snd (Sample.down_run 3 (1 # 2)))) = 3%nat)
    by reflexivity.
  split; [exact H|].
  exact (http_get_total_sleep Sample.net_down "https://soundcloud.com/a"
           15 3 (1 # 2) None None [] 2 H).
Defined.

Lemma http_get_negative_backoff_witness :
  (- (1 # 2) < 0)%Q
  /\ (2 <= 3)%Z
  /\ retried (Sample.net_down []
                (http_request "https://soundcloud.com/a" 15 None None)) = true
  /\ Sample.down_run 3 (- (1 # 2))
     = (Raise (ValueError "sleep length must be non-negative"),
        [] ++ [EvGet (http_request "https://soundcloud.com/a" 15 None None)
                 (Sample.net_down []
                    (http_request "https://soundcloud.com/a" 15 None None))]).
Proof.
  assert (H1 : (- (1 # 2) < 0)%Q) by reflexivity.
  assert (H2 : (2 <= 3)%Z) by lia.
  assert (H3 : retried (Sample.net_down []
                          (http_request "https://soundcloud.com/a" 15 None None))
               = true) by reflexivity.
  do 3 (split; [assumption|]).
  exact (http_get_negative_backoff Sample.net_down "https://soundcloud.com/a"
           15 3 (- (1 # 2)) None None [] H1 H2 H3).
Defined.

Lemma normalize_absolute_profile_url_witness :
  startswith (PyStr.strip "  https://soundcloud.com/a ") "http" = true
  /\ _normalize_profile_url Sample.parser Sample.scraper
       "  https://soundcloud.com/a "
     = PyStr.strip "  https://soundcloud.com/a "
  /\ _normalize_profile_url Sample.parser Sample.scraper
       (_normalize_profile_url Sample.parser Sample.scraper
          "  https://soundcloud.com/a ")
     = _normalize_profile_url Sample.parser Sample.scraper
         "  https://soundcloud.com/a ".
Proof.
  split; [reflexivity|].
  apply (normalize_absolute_profile_url Sample.parser Sample.scraper
           "  https://soundcloud.com/a ").
  reflexivity.
Defined.

Lemma loader_result_well_formed_witness :
  _normalize_input_config Sample.good_raw
  = Ok {| profiles := ["https://soundcloud.com/a"]; keywords := ["lofi"];
          maxItemsPerKeyword := 5 |}
  /\ (0 < 5)%Z
  /\ Forall (fun s => PyStr.blank s = false) ["https://soundcloud.com/a"]
  /\ Forall (fun s => PyStr.blank s = false) ["lofi"].
Proof.
  split; [reflexivity|].
  apply (loader_result_well_formed Sample.good_raw
           {| profiles := ["https://soundcloud.com/a"]; keywords := ["lofi"];
              maxItemsPerKeyword := 5 |}).
  reflexivity.
Defined.

Lemma loader_idempotent_witness :
  _normalize_input_config Sample.good_raw
  = Ok {| profiles := ["https://soundcloud.com/a"]; keywords := ["lofi"];
          maxItemsPerKeyword := 5 |}
  /\ _normalize_input_config
       (cfg_dict {| profiles := ["https://soundcloud.com/a"];
                    keywords := ["lofi"]; maxItemsPerKeyword := 5 |})
     = Ok {| profiles := ["https://soundcloud.com/a"]; keywords := ["lofi"];
             maxItemsPerKeyword := 5 |}.
Proof.
  split; [reflexivity|].
  apply (loader_idempotent Sample.good_raw). reflexivity.
Defined.

Lemma search_artists_nonpositive_witness :
  (0 <= 0)%Z
  /\ PyStr.blank "lofi" = false
  /\ search_artists Sample.net_ok Sample.parser Sample.scraper "lofi" 0 []
     = bind (scraper_get Sample.net_ok Sample.scraper
               (base_url Sample.scraper ++ "/search/people?q="
                ++ quote Sample.parser (PyStr.strip "lofi"))%string)
         (fun _ => ret []) [].
Proof.
  assert (H1 : (0 <= 0)%Z) by lia.
  split; [exact H1|]. split; [reflexivity|].
  apply (search_artists_nonpositive Sample.net_ok Sample.parser Sample.scraper
           "lofi" 0 [] H1).
  reflexivity.
Defined.

Lemma main_unusable_input_witness :
  (false = false
   \/ (exists e, Ok (JList []) = Raise e /\ is_Exception e = true)
   \/ (exists v, Ok (JList []) = Ok v /\ forall d, v <> JDict d))
  /\ exists arg,
       main Sample.net_ok Sample.parser false (Ok (JList [])) Sample.scraper []
       = (Raise (SystemExit arg), []).
Proof.
  assert (H : false = false
              \/ (exists e, Ok (JList []) = Raise e /\ is_Exception e = true)
              \/ (exists v, Ok (JList []) = Ok v /\ forall d, v <> JDict d))
    by (left; reflexivity).
  split; [exact H|].
  exact (main_unusable_input Sample.net_ok Sample.parser Sample.scraper false
           (Ok (JList [])) [] H).
Defined.

Lemma main_profile_failure_witness :
  exists e w1,
    fetch_artist_profile Sample.net_down Sample.parser Sample.scraper
      "https://soundcloud.com/a" [] = (Raise e, w1)
    /\ main Sample.net_down Sample.parser true (Ok (JDict Sample.good_raw))
         Sample.scraper [] = (Raise e, w1).
Proof.
  destruct (fetch_artist_profile Sample.net_down Sample.parser Sample.scraper
              "https://soundcloud.com/a" []) as [[found|e] w1] eqn:Hrun.
  - vm_compute in Hrun. discriminate Hrun.
  - exists e, w1. split; [reflexivity|].
    exact (main_profile_failure Sample.net_down Sample.parser Sample.scraper
             Sample.good_raw
             {| profiles := ["https://soundcloud.com/a"]; keywords := ["lofi"];
                maxItemsPerKeyword := 5 |}
             "https://soundcloud.com/a" [] [] w1 e eq_refl eq_refl Hrun).
Defined.

Lemma pattern_search_sound_witness :
  pattern_search "<script>window.__sc_hydration = [1, 2, 3];</script>"
  = Some "[1, 2, 3]"
  /\ exists before ws1 ws2 body after,
       "<script>window.__sc_hydration = [1, 2, 3];</script>"
       = (before ++ "window.__sc_hydration" ++ ws1 ++ "=" ++ ws2
          ++ "[1, 2, 3]" ++ ";" ++ after)%string
       /\ PyStr.blank ws1 = true
       /\ PyStr.blank ws2 = true
       /\ "[1, 2, 3]" = (String "[" body ++ "]")%string
       /\ body <> EmptyString
       /\ occurs newline body = false.
Proof.
  split; [reflexivity|].
  apply (pattern_search_sound
           "<script>window.__sc_hydration = [1, 2, 3];</script>" "[1, 2, 3]").
  reflexivity.
Defined.

(** ** The order of the results of a search *)

Section SearchOrder.

Variable network : world -> request -> reply.
Variable parser : page_parser.
Variable config : ScraperConfig.

Lemma collect_hydration_take max_items user_entries artists :
  (length artists <= Z.to_nat max_items)%nat ->
  collect_hydration parser max_items user_entries artists
  = artists
    ++ take (Z.to_nat max_items - length artists)
         (omap (fun user_data => _normalize_artist parser user_data None)
            user_entries).
Proof.
  revert artists. induction user_entries as [|user_data rest IH];
    intros artists Hlen; cbn [collect_hydration omap list_omap].
  - now rewrite take_nil, app_nil_r.
  - unfold len_ge.
    destruct (Z.geb_spec (Z.of_nat (length artists)) max_items) as [Hfull|Hroom].
    + replace (Z.to_nat max_items - length artists)%nat with 0%nat by lia.
      now rewrite take_0, app_nil_r.
    + destruct (_normalize_artist parser user_data None) as [a|]; [|now apply IH].
      rewrite IH by (rewrite length_app; cbn [length]; lia).
      rewrite length_app. cbn [length].
      replace (Z.to_nat max_items - length artists)%nat
        with (S (Z.to_nat max_items - (length artists + 1)))%nat by lia.
      now rewrite <- app_assoc.
Qed.

Lemma collect_profiles_prefix max_items links artists w found w' :
  collect_profiles network parser config max_items links artists w
  = (Ok found, w') ->
  artists `prefix_of` found.
Proof.
  revert artists w. induction links as [|url rest IH]; intros artists w;
    cbn [collect_profiles]; [now intros [= <- <-]|].
  destruct (len_ge artists max_items); [now intros [= <- <-]|].
  unfold bind, try_except.
  destruct (fetch_artist_profile network parser config url w)
    as [[[a|]|e] w1].
  - intros H. apply IH in H. etrans; [|exact H]. now apply prefix_app_r.
  - apply IH.
  - destruct (is_Exception e); [cbn [ret]; apply IH|discriminate].
Qed.

End SearchOrder.

(** X26. The artists embedded in the search page come first: when the
    request for the search page returns [resp] and the search returns
    [found] for some [max_items >= 0], the first [max_items] entries of the
    user list of the page that [_normalize_artist] accepts are the first
    records of [found], in the order of the page. *)
Theorem search_artists_hydration_first (network : world -> request -> reply)
    (parser : page_parser) (config : ScraperConfig) (keyword : string)
    (max_items : Z) (w w1 w' : world) (resp : response) (found : list artist) :
  (0 <= max_items)%Z ->
  scraper_get network config
    (base_url config ++ "/search/people?q="
     ++ quote parser (PyStr.strip keyword))%string w
  = (Ok resp, w1) ->
  search_artists network parser config keyword max_items w = (Ok found, w') ->
  take (Z.to_nat max_items)
    (omap (fun user_data => _normalize_artist parser user_data None)
       (_find_user_list parser (_extract_hydration_blocks parser (text resp))))
  `prefix_of` found.
Proof.
  intros Hmax Hget. unfold search_artists.
  destruct (negb _); [discriminate|].
  unfold bind at 1. rewrite Hget.
  rewrite collect_hydration_take by (cbn [length]; lia).
  cbn [app length]. rewrite Nat.sub_0_r.
  set (hyd := take (Z.to_nat max_items) _).
  assert (Hhyd : (length hyd <= Z.to_nat max_items)%nat)
    by (subst hyd; rewrite length_take; lia).
  unfold slice_to. destruct (Z.leb_spec 0 max_items) as [_|Hneg]; [|lia].
  unfold len_ge.
  destruct (Z.geb_spec (Z.of_nat (length hyd)) max_items) as [Hfull|Hroom].
  - intros [= <- <-]. rewrite take_ge by lia. reflexivity.
  - unfold bind.
    destruct (collect_profiles _ _ _ _ _ _ w1) as [[artists|e] w2] eqn:Hcol;
      [|discriminate].
    intros [= <- <-].
    apply collect_profiles_prefix in Hcol as [extra ->].
    rewrite take_app, (take_ge hyd) by lia.
    now apply prefix_app_r.
Qed.

Lemma search_artists_hydration_first_witness :
  (0 <= 2)%Z
  /\ exists resp w1 found w',
       scraper_get Sample.net_ok Sample.scraper
         (base_url Sample.scraper ++ "/search/people?q="
          ++ quote Sample.parser (PyStr.strip "lofi"))%string []
       = (Ok resp, w1)
       /\ search_artists Sample.net_ok Sample.parser Sample.scraper "lofi" 2 []
          = (Ok found, w')
       /\ take (Z.to_nat 2)
            (omap (fun user_data => _normalize_artist Sample.parser user_data None)
               (_find_user_list Sample.parser
                  (_extract_hydration_blocks Sample.parser (text resp))))
          `prefix_of` found.
Proof.
  assert (H0 : (0 <= 2)%Z) by lia.
  split; [exact H0|].
  destruct (scraper_get Sample.net_ok Sample.scraper
              (base_url Sample.scraper ++ "/search/people?q="
               ++ quote Sample.parser (PyStr.strip "lofi"))%string [])
    as [[resp|e] w1] eqn:Hget; [|vm_compute in Hget; discriminate Hget].
  destruct (search_artists Sample.net_ok Sample.parser Sample.scraper "lofi" 2 [])
    as [[found|e] w'] eqn:Hrun; [|vm_compute in Hrun; discriminate Hrun].
  exists resp, w1, found, w'. split; [reflexivity|]. split; [reflexivity|].
  exact (search_artists_hydration_first Sample.net_ok Sample.parser
           Sample.scraper "lofi" 2 [] w1 w' resp found H0 Hget Hrun).
Defined.
